(** * WPlace tile stitcher: a shallow embedding of [wplace_capture.py]

    The development follows the script top to bottom: the slippy-tile
    projection, the grid of offsets around the centre tile, the per-tile
    download with retries, the stitcher and the driver loop of [main].

    Python [int] is [Z]; Python [float] is the primitive binary64 [float];
    the tile directory is a finite map from path names to byte strings;
    exceptions are an explicit [result] type threaded with the world. *)

From Stdlib Require Import ZArith QArith List Lia Floats.
From stdpp Require Import base option list gmap strings pretty.
From Stdlib Require Import Ascii.

Local Open Scope Z_scope.
Local Set Warnings "-inexact-float".

(** ** Exceptions

    All of these are subclasses of Python's [Exception], so every
    [except Exception] handler of the script catches each of them.
    Asynchronous interrupts are outside the model. *)

Inductive exn : Type :=
  | ValueError
  | OverflowError
  | ZeroDivisionError
  | OSError
  | RequestException
  | UnidentifiedImageError
  | SystemError.

Inductive result (A : Type) : Type :=
  | Ok (a : A)
  | Raise (e : exn).

Arguments Ok {A} a.
Arguments Raise {A} e.

Definition rbind {A B : Type} (r : result A) (k : A -> result B) : result B :=
  match r with
  | Ok a => k a
  | Raise e => Raise e
  end.

Declare Scope result_scope.
Delimit Scope result_scope with res.
Notation "'let?' x ':=' c 'in' k" := (rbind c (fun x => k))
  (at level 10, x pattern, c at level 100, k at level 200) : result_scope.

(** ** Constants of the script *)

Definition DEFAULT_BACKEND_prefix : string := "https://backend.wplace.live/files/s0/tiles/".
Definition DEFAULT_FALLBACK_TILE : Z * Z := (1000, 1000).
Definition TILE_ZOOM : Z := 11.

(** ** Python numbers *)

(** [int(f)] for a float [f]: truncation toward zero; an infinity raises
    [OverflowError] and a NaN raises [ValueError]. *)
Definition int_of_float (f : float) : result Z :=
  match Prim2SF f with
  | S754_zero _ => Ok 0
  | S754_finite s m e =>
      let mag := Z.shiftl (Zpos m) e in
      Ok (if s then - mag else mag)
  | S754_infinity _ => Raise OverflowError
  | S754_nan => Raise ValueError
  end.

(** The implicit conversion of an [int] operand in mixed arithmetic:
    round to nearest even, [OverflowError] when the integer is too large. *)
Definition float_of_int (n : Z) : result float :=
  let f := SF2Prim (binary_normalize prec emax n 0 false) in
  if PrimFloat.is_infinity f then Raise OverflowError else Ok f.

(** [min(a, b)] and [max(a, b)] on floats return the first argument unless
    the second compares strictly smaller (resp. greater). *)
Definition py_min_float (a b : float) : float :=
  if PrimFloat.ltb b a then b else a.

Definition py_max_float (a b : float) : float :=
  if PrimFloat.ltb a b then b else a.

(** [a / b] on floats raises on a zero divisor. *)
Definition py_div_float (a b : float) : result float :=
  if PrimFloat.eqb b 0%float then Raise ZeroDivisionError
  else Ok (PrimFloat.div a b).

Definition math_pi : float := 0x1.921fb54442d18p+1%float.

(** [math.radians(x)] multiplies by the double [pi / 180]. *)
Definition math_radians (x : float) : float :=
  PrimFloat.mul x (PrimFloat.div math_pi 180%float).

Definition MERCATOR_MAX_LAT : float := 85.05112878%float.

(** ** The projection *)

Section Projection.

(** The three transcendental functions come from the C library; each may
    raise ([ValueError] on a domain error). The tile count [n] is an [int]
    and is converted to a float at each of the two mixed products; the
    conversion is written once, where the first product evaluates it.
    Zoom levels are not negative: for [z < 0] Python's [2 ** z] is a float
    and the results are no longer integers. *)
Variables math_tan math_cos math_log : float -> result float.

Definition latlon_to_tile (lat lon : float) (z : Z) : result (Z * Z) :=
  let lat := py_max_float (py_min_float lat MERCATOR_MAX_LAT)
                          (PrimFloat.opp MERCATOR_MAX_LAT) in
  let n := 2 ^ z in
  (let? nf := float_of_int n in
   let x_float :=
     PrimFloat.mul (PrimFloat.div (PrimFloat.add lon 180%float) 360%float) nf in
   let lat_rad := math_radians lat in
   let? t := math_tan lat_rad in
   let? c := math_cos lat_rad in
   let? sec := py_div_float 1%float c in
   let? l := math_log (PrimFloat.add t sec) in
   let y_float :=
     PrimFloat.mul
       (PrimFloat.div
          (PrimFloat.sub 1%float (PrimFloat.div l math_pi)) 2%float) nf in
   let? xi := int_of_float x_float in
   let x := xi mod n in
   let? yi := int_of_float y_float in
   let y := Z.max 0 (Z.min (n - 1) yi) in
   Ok (x, y))%res.

End Projection.

Definition wrap_clamp_tile (x y z : Z) : Z * Z :=
  let n := 2 ^ z in
  (x mod n, Z.max 0 (Z.min (n - 1) y)).

(** Values of the C library at the equator: [tan 0 = 0], [cos 0 = 1],
    [log 1 = 0]. *)
Definition tan_equator (_ : float) : result float := Ok 0%float.
Definition cos_equator (_ : float) : result float := Ok 1%float.
Definition log_equator (_ : float) : result float := Ok 0%float.

(** *** The stages of the projection, named

    The float to which the tile count [2 ** z] converts, the clamped
    latitude, and the two scaled coordinates [x_float] and [y_float] of
    [latlon_to_tile], the second as a function of the logarithm. *)
Definition tile_count_float (z : Z) : float :=
  SF2Prim (binary_normalize prec emax (2 ^ z) 0 false).

Definition zoom_converts (z : Z) : bool :=
  negb (PrimFloat.is_infinity (tile_count_float z)).

Definition clamp_latitude (lat : float) : float :=
  py_max_float (py_min_float lat MERCATOR_MAX_LAT) (PrimFloat.opp MERCATOR_MAX_LAT).

Definition x_float_of (lon : float) (z : Z) : float :=
  PrimFloat.mul (PrimFloat.div (PrimFloat.add lon 180%float) 360%float)
                (tile_count_float z).

Definition y_float_of (l : float) (z : Z) : float :=
  PrimFloat.mul
    (PrimFloat.div (PrimFloat.sub 1%float (PrimFloat.div l math_pi)) 2%float)
    (tile_count_float z).

(** Neither an infinity nor a NaN. *)
Definition float_is_finite (f : float) : bool :=
  match Prim2SF f with
  | S754_zero _ | S754_finite _ _ _ => true
  | S754_infinity _ | S754_nan => false
  end.

(** ** The grid of offsets around the centre tile (lines 230-244 of [main]) *)

(** [range(lo, hi)]: the integers [lo], ..., [hi - 1], empty when [hi <= lo]. *)
Definition py_range (lo hi : Z) : list Z := seqZ lo (hi - lo).

(** Both axes use the same range; for an even [n] the script also prints a
    warning, emitted by [main] below. *)
Definition offset_range (n : Z) : list Z :=
  let h := n / 2 in
  if n mod 2 =? 0 then py_range (- h) h else py_range (- h) (h + 1).

(** An entry of [coords_meta] is [(x, y, dx, dy)]. *)
Definition build_coords_meta (cx cy n : Z) : list (Z * Z * Z * Z) :=
  let dx_range := offset_range n in
  let dy_range := offset_range n in
  flat_map
    (fun dy =>
       map (fun dx =>
              let '(wx, wy) := wrap_clamp_tile (cx + dx) (cy + dy) TILE_ZOOM in
              (wx, wy, dx, dy))
           dx_range)
    dy_range.

(** ** Images

    A raster is its size and its pixels; decoding, encoding and alpha
    compositing belong to the imaging library and are part of the
    environment below. *)

Record image : Type := Image { size : Z * Z; getpixel : Z -> Z -> Z * Z * Z * Z }.

(** A channel handed to the imaging library as an integer is saturated to
    the range of a byte. *)
Definition clip8 (c : Z) : Z := Z.max 0 (Z.min 255 c).

Definition clip_rgba (color : Z * Z * Z * Z) : Z * Z * Z * Z :=
  let '(r, g, b, a) := color in (clip8 r, clip8 g, clip8 b, clip8 a).

(** The colours that saturation leaves alone. *)
Definition byte_channels (color : Z * Z * Z * Z) : Prop :=
  let '(r, g, b, a) := color in
  0 <= r <= 255 /\ 0 <= g <= 255 /\ 0 <= b <= 255 /\ 0 <= a <= 255.

(** [Image.new("RGBA", (w, h), color)]: a solid raster of the saturated
    colour; a negative side raises. *)
Definition Image_new (sz : Z * Z) (color : Z * Z * Z * Z) : result image :=
  let '(w, h) := sz in
  if (w <? 0) || (h <? 0) then Raise ValueError
  else Ok {| size := sz; getpixel := fun _ _ => clip_rgba color |}.

(** [canvas.paste(tile, (px, py))]: the tile's pixels replace the canvas
    pixels under it; the part of the tile outside the canvas is dropped. *)
Definition paste (canvas tile : image) (box : Z * Z) : image :=
  let '(px, py) := box in
  let '(tw, th) := size tile in
  {| size := size canvas;
     getpixel := fun i j =>
       if (px <=? i) && (i <? px + tw) && (py <=? j) && (j <? py + th)
       then getpixel tile (i - px) (j - py)
       else getpixel canvas i j |}.

(** ** The world: tile store, request counter and trace *)

Inductive reply : Type :=
  | Reply (status_code : Z) (content : list Byte.byte)
  | ConnectionFailed.

(** What the script shows or does towards the outside, in order.
    [PrintProgress pct index total] is the line
    "Download progress: pct% (index/total)", and [PrintTilesDir dir] the
    line "Tiles stored in: dir", where [dir] is the resolved directory. *)
Inductive event : Type :=
  | PrintCenter (cx cy : Z)
  | WarnEvenGrid
  | Get (url : string)
  | Sleep (seconds : Q)
  | PrintProgress (pct index total : Z)
  | PrintSaved (out : string)
  | PrintTilesDir (dir : string)
  | PrintError (e : exn).

Record world : Type := World {
  files : gmap string (list Byte.byte);
  requests : nat;
  trace : list event
}.

(** What [img.save(path)] comes to for a path and an image, as the imaging
    library decides it. The format is chosen from the extension of the
    path, and there may be none for it. The encoder of the format may
    refuse the image, an empty raster or a mode that the format cannot
    hold, after a part of the file has been written. *)
Inductive encoding : Type :=
  | Encoded (data : list Byte.byte)
  | EncoderFailed (written : list Byte.byte) (e : exn)
  | UnknownFormat.

(** The collaborators of the script: the remote server (its reply to the
    k-th request of the run), the storage permissions and path
    resolution, the imaging library and the C library. *)
Record environment : Type := Environment {
  http_get : string -> Z -> nat -> reply;
  write_allowed : string -> bool;
  mkdir_allowed : string -> bool;
  resolve : string -> string;
  png_decode : list Byte.byte -> result image;
  image_encode : string -> image -> encoding;
  alpha_composite : image -> image -> image;
  script_dir : string;
  libm_tan : float -> result float;
  libm_cos : float -> result float;
  libm_log : float -> result float
}.

(** Computations that read and change the world and may raise; the world
    reached when an exception is raised is kept. *)
Definition io (A : Type) : Type := world -> result A * world.

Definition ret {A : Type} (a : A) : io A := fun w => (Ok a, w).

Definition bind {A B : Type} (c : io A) (k : A -> io B) : io B :=
  fun w =>
    match c w with
    | (Ok a, w') => k a w'
    | (Raise e, w') => (Raise e, w')
    end.

(** [try: body except Exception: handler]. *)
Definition try_except {A : Type} (body : io A) (handler : io A) : io A :=
  fun w =>
    match body w with
    | (Ok a, w') => (Ok a, w')
    | (Raise _, w') => handler w'
    end.

Definition lift {A : Type} (r : result A) : io A := fun w => (r, w).

Declare Scope io_scope.
Delimit Scope io_scope with io.
Notation "x <- c1 ;; c2" := (bind c1 (fun x => c2))
  (at level 100, c1 at next level, right associativity) : io_scope.
Notation "c1 ;; c2" := (bind c1 (fun _ => c2))
  (at level 100, right associativity) : io_scope.

Definition emit (e : event) : io unit :=
  fun w => (Ok tt, {| files := files w; requests := requests w;
                      trace := trace w ++ [e] |}).

(** [session.get(url, timeout=timeout)] followed by [r.raise_for_status()]:
    a connection error or a timeout raises, and so does a 4xx or 5xx status. *)
Definition session_get (env : environment) (url : string) (timeout : Z)
  : io (list Byte.byte) :=
  fun w =>
    let w' := {| files := files w; requests := S (requests w);
                 trace := trace w ++ [Get url] |} in
    match http_get env url timeout (requests w) with
    | Reply status_code content =>
        if (400 <=? status_code) && (status_code <? 600)
        then (Raise RequestException, w')
        else (Ok content, w')
    | ConnectionFailed => (Raise RequestException, w')
    end.

(** A reply that [session.get] / [raise_for_status] turn into an exception. *)
Definition remote_failure (r : reply) : bool :=
  match r with
  | Reply status_code _ => (400 <=? status_code) && (status_code <? 600)
  | ConnectionFailed => true
  end.

(** [p.write_bytes(data)]: the file holds exactly [data] afterwards; a
    refused write raises and leaves the store as it was. *)
Definition write_bytes (env : environment) (p : string) (data : list Byte.byte)
  : io unit :=
  fun w =>
    if write_allowed env p
    then (Ok tt, {| files := <[p := data]> (files w); requests := requests w;
                    trace := trace w |})
    else (Raise OSError, w).

Definition path_join (dir name : string) : string := dir +:+ "/" +:+ name.

(** [tiles_dir / f"tile_{x}_{y}.png"]. *)
Definition tile_path (tiles_dir : string) (x y : Z) : string :=
  path_join tiles_dir ("tile_" +:+ pretty x +:+ "_" +:+ pretty y +:+ ".png").

(** [DEFAULT_BACKEND.format(x=x, y=y, z=z)]; the template has no [z] field. *)
Definition tile_url (x y z : Z) : string :=
  DEFAULT_BACKEND_prefix +:+ pretty x +:+ "/" +:+ pretty y +:+ ".png".

(** ** Networking: [download_tile] *)

(** The body of the [for attempt in range(1, retries + 1)] loop, iterated
    over the remaining attempt numbers. *)
Fixpoint download_attempts (env : environment) (url dest : string)
    (timeout retries : Z) (attempts : list Z) : io unit :=
  match attempts with
  | [] => ret tt
  | attempt :: rest =>
      fun w =>
        match (content <- session_get env url timeout ;;
               write_bytes env dest content)%io w with
        | (Ok _, w') => (Ok tt, w')
        | (Raise _, w') =>
            if retries <=? attempt
            then (try_except (write_bytes env dest []) (ret tt) ;;
                  download_attempts env url dest timeout retries rest)%io w'
            else (emit (Sleep ((1 # 2) * inject_Z attempt)) ;;
                  download_attempts env url dest timeout retries rest)%io w'
        end
  end.

Definition download_tile (env : environment) (x y z : Z) (dest : string)
    (timeout retries : Z) : io unit :=
  let url := tile_url x y z in
  download_attempts env url dest timeout retries (py_range 1 (retries + 1)).

(** ** Stitching *)

(** [p.exists()] and [p.stat().st_size] on the tile store. *)
Definition path_exists (fs : gmap string (list Byte.byte)) (p : string) : bool :=
  bool_decide (is_Some (fs !! p)).

Definition st_size (fs : gmap string (list Byte.byte)) (p : string) : Z :=
  match fs !! p with
  | Some data => Z.of_nat (length data)
  | None => 0
  end.

(** [Image.open(p)], [im.load()] and [im.convert("RGBA")]. *)
Definition image_open (env : environment) (fs : gmap string (list Byte.byte))
    (p : string) : result image :=
  match fs !! p with
  | Some data => png_decode env data
  | None => Raise OSError
  end.

Definition try_result {A : Type} (body : result A) (handler : result A)
  : result A :=
  match body with
  | Ok a => Ok a
  | Raise _ => handler
  end.

Definition safe_open_png (env : environment) (fs : gmap string (list Byte.byte))
    (p : string) : result (option image) :=
  try_result
    (if negb (path_exists fs p) || (st_size fs p =? 0) then Ok None
     else (let? im := image_open env fs p in Ok (Some im))%res)
    (Ok None).

(** The first loop of [stitch_from_folder]: the size of the first tile
    that opens, if any. *)
Fixpoint infer_tile_size (env : environment) (fs : gmap string (list Byte.byte))
    (tiles_dir : string) (coords_meta : list (Z * Z * Z * Z))
  : result (option (Z * Z)) :=
  match coords_meta with
  | [] => Ok None
  | (x, y, _, _) :: rest =>
      (let? im := safe_open_png env fs (tile_path tiles_dir x y) in
       match im with
       | Some im => Ok (Some (size im))
       | None => infer_tile_size env fs tiles_dir rest
       end)%res
  end.

(** The tile pasted for one cell: the stored tile when it opens, a solid
    block of the fill colour otherwise. *)
Definition cell_tile (env : environment) (fs : gmap string (list Byte.byte))
    (tiles_dir : string) (tw th : Z) (bg_rgba : option (Z * Z * Z * Z))
    (x y : Z) : result image :=
  (let? tile := safe_open_png env fs (tile_path tiles_dir x y) in
   match tile with
   | None =>
       let fill := match bg_rgba with Some c => c | None => (0, 0, 0, 0) end in
       Image_new (tw, th) fill
   | Some tile => Ok tile
   end)%res.

(** The second loop of [stitch_from_folder]. *)
Fixpoint paste_cells (env : environment) (fs : gmap string (list Byte.byte))
    (tiles_dir : string) (tw th half : Z) (bg_rgba : option (Z * Z * Z * Z))
    (coords_meta : list (Z * Z * Z * Z)) (canvas : image) : result image :=
  match coords_meta with
  | [] => Ok canvas
  | (x, y, dx, dy) :: rest =>
      let col := dx + half in
      let row := dy + half in
      let px := col * tw in
      let py := row * th in
      (let? tile := cell_tile env fs tiles_dir tw th bg_rgba x y in
       paste_cells env fs tiles_dir tw th half bg_rgba rest
                   (paste canvas tile (px, py)))%res
  end.

Definition stitch_from_folder (env : environment)
    (fs : gmap string (list Byte.byte)) (tiles_dir : string)
    (coords_meta : list (Z * Z * Z * Z)) (grid_size : Z)
    (bg_rgba : option (Z * Z * Z * Z)) : result image :=
  (let? inferred := infer_tile_size env fs tiles_dir coords_meta in
   let '(tw, th) := match inferred with
                    | Some sz => sz
                    | None => DEFAULT_FALLBACK_TILE
                    end in
   let? canvas := Image_new (tw * grid_size, th * grid_size) (0, 0, 0, 0) in
   let half := grid_size / 2 in
   paste_cells env fs tiles_dir tw th half bg_rgba coords_meta canvas)%res.

(** ** The driver: [main] and the script entry *)

(** The command line after argparse. [url_latlng] is the outcome of
    [parse_wplace_url(args.url)] and [background_hex], when the option is
    given and not empty, the outcome of [parse_hex_color] on it; durations
    are exact rationals. *)
Record args : Type := Args {
  url_latlng : result (float * float);
  out : string;
  grid_size : Z;
  timeout : Z;
  delay : Q;
  retries : Z;
  background_hex : option (result (Z * Z * Z * Z));
  temp_dir : option string;
  keep_tiles : bool;
  skip_existing : bool
}.

(** [int(q)]: truncation toward zero. *)
Definition int_of_Q (q : Q) : Z := Z.quot (Qnum q) (Zpos (Qden q)).

(** The milestones 0.25, 0.50, 0.75 and 1.00 are binary fractions: their
    products with [total] and with 100 are exact in binary64 for every
    [total] below 2^51, so they are kept as rationals. *)
Definition milestones : list Q := [1 # 4; 1 # 2; 3 # 4; 1 # 1]%Q.

(** The table [{m: max(1, int(total * m)) for m in milestones}], as the
    function it tabulates. *)
Definition next_idx_trigger (total : Z) (m : Q) : Z :=
  Z.max 1 (int_of_Q (inject_Z total * m)).

(** [for m in milestones: ...] at one loop index; [printed] is the set of
    milestones already shown. *)
Fixpoint print_progress (total index : Z) (ms : list Q) (printed : list Q)
  : io (list Q) :=
  match ms with
  | [] => ret printed
  | m :: rest =>
      if (next_idx_trigger total m <=? index)
         && negb (existsb (Qeq_bool m) printed)
      then (emit (PrintProgress (int_of_Q (m * 100)) index total) ;;
            print_progress total index rest (m :: printed))%io
      else print_progress total index rest printed
  end.

(** Lines 264-269: the decision whether to fetch one tile. *)
Definition fetch_step (env : environment) (a : args) (x y : Z) (dest : string)
  : io unit :=
  fun w =>
    if skip_existing a && path_exists (files w) dest then (Ok tt, w)
    else
      if negb (path_exists (files w) dest) || (st_size (files w) dest =? 0)
      then download_tile env x y TILE_ZOOM dest (timeout a) (retries a) w
      else (Ok tt, w).

(** [for index, (x, y, _, _) in enumerate(coords_meta, 1): ...]. *)
Fixpoint download_loop (env : environment) (a : args) (tiles_dir : string)
    (total index : Z) (coords_meta : list (Z * Z * Z * Z)) (printed : list Q)
  : io (list Q) :=
  match coords_meta with
  | [] => ret printed
  | (x, y, _, _) :: rest =>
      let dest := tile_path tiles_dir x y in
      (fetch_step env a x y dest ;;
       (if (index <? total) && negb (Qle_bool (delay a) 0)
        then emit (Sleep (delay a)) else ret tt) ;;
       printed' <- print_progress total index milestones printed ;;
       download_loop env a tiles_dir total (index + 1) rest printed')%io
  end.

(** [tiles_dir.mkdir(parents=True, exist_ok=True)]. *)
Definition mkdir (env : environment) (dir : string) : io unit :=
  fun w => if mkdir_allowed env dir then (Ok tt, w) else (Raise OSError, w).

(** [img.save(args.out)]: the format is looked up first; the file is then
    opened for writing, which empties it, and the encoder writes into it.
    When the encoder raises, a file that was there before is left with
    what had been written, and a file that the call created is removed
    again. *)
Definition save (env : environment) (p : string) (img : image) : io unit :=
  fun w =>
    match image_encode env p img with
    | UnknownFormat => (Raise ValueError, w)
    | Encoded data => write_bytes env p data w
    | EncoderFailed written e =>
        if write_allowed env p
        then (Raise e,
              {| files := match files w !! p with
                          | Some _ => <[p := written]> (files w)
                          | None => files w
                          end;
                 requests := requests w; trace := trace w |})
        else (Raise OSError, w)
    end.

Definition get_files : io (gmap string (list Byte.byte)) :=
  fun w => (Ok (files w), w).

Definition main (env : environment) (a : args) : io unit :=
  (latlng <- lift (url_latlng a) ;;
   let '(lat, lng) := latlng in
   center <- lift (latlon_to_tile (libm_tan env) (libm_cos env) (libm_log env)
                                  lat lng TILE_ZOOM) ;;
   let '(cx, cy) := center in
   emit (PrintCenter cx cy) ;;
   let n := grid_size a in
   (if n mod 2 =? 0 then emit WarnEvenGrid else ret tt) ;;
   let coords_meta := build_coords_meta cx cy n in
   let tiles_dir :=
     match temp_dir a with
     | Some d => if String.eqb d "" then path_join (script_dir env) "tmp" else d
     | None => path_join (script_dir env) "tmp"
     end in
   mkdir env tiles_dir ;;
   let total := Z.of_nat (length coords_meta) in
   download_loop env a tiles_dir total 1 coords_meta [] ;;
   bg_rgba <- lift (match background_hex a with
                    | Some parsed => (let? c := parsed in Ok (Some c))%res
                    | None => Ok None
                    end) ;;
   fs <- get_files ;;
   img <- lift (stitch_from_folder env fs tiles_dir coords_meta n bg_rgba) ;;
   img <- (match bg_rgba with
           | Some c =>
               bg <- lift (Image_new (size img) c) ;;
               ret (alpha_composite env bg img)
           | None => ret img
           end) ;;
   save env (out a) img ;;
   emit (PrintSaved (out a)) ;;
   emit (PrintTilesDir (resolve env tiles_dir)))%io.

(** The [if __name__ == "__main__"] block: the exit status and the final
    world. *)
Definition script (env : environment) (a : args) (w : world) : Z * world :=
  match main env a w with
  | (Ok _, w') => (0, w')
  | (Raise e, w') =>
      (1, {| files := files w'; requests := requests w';
             trace := trace w' ++ [PrintError e] |})
  end.

(** ** Example collaborators, used to run the script on concrete inputs *)

(** A path that starts at the root resolves to itself, any other one
    below the working directory. *)
Definition example_resolve (p : string) : string :=
  match p with
  | String "/" _ => p
  | _ => "/home/user/" +:+ p
  end.

(** The encoder refuses an empty raster after the first byte of the file;
    every other image encodes to the same one-byte file, whatever the
    path. *)
Definition example_encode (p : string) (img : image) : encoding :=
  let '(w, h) := size img in
  if (w <=? 0) || (h <=? 0) then EncoderFailed [Byte.x89] SystemError
  else Encoded [Byte.x89].

(** An environment with the given server and storage permissions; no stored
    tile decodes, and the C library is taken at the equator. *)
Definition example_env (server : string -> Z -> nat -> reply)
    (writable : string -> bool) : environment :=
  {| http_get := server;
     write_allowed := writable;
     mkdir_allowed := fun _ => true;
     resolve := example_resolve;
     png_decode := fun _ => Raise UnidentifiedImageError;
     image_encode := example_encode;
     alpha_composite := fun _ img => img;
     script_dir := "/opt/wplace";
     libm_tan := tan_equator;
     libm_cos := cos_equator;
     libm_log := log_equator |}.

Definition server_up : string -> Z -> nat -> reply :=
  fun _ _ _ => Reply 200 [Byte.x89; Byte.x50].

Definition server_down : string -> Z -> nat -> reply :=
  fun _ _ k => if Nat.even k then Reply 503 [] else ConnectionFailed.

Definition empty_world : world := {| files := ∅; requests := 0; trace := [] |}.

(** [--url ...?lat=0&lng=0 -o out.png --grid-size 1] with the defaults of
    the other options. *)
Definition example_args (skip : bool) : args :=
  {| url_latlng := Ok (0%float, 0%float);
     out := "out.png";
     grid_size := 1;
     timeout := 10;
     delay := 1 # 2;
     retries := 2;
     background_hex := None;
     temp_dir := None;
     keep_tiles := false;
     skip_existing := skip |}.

(** ** Relating the world before and after a computation *)

(** [respects R c]: every run of [c], whether it returns or raises, takes a
    world to one related to it by [R]. *)
Definition respects (R : world -> world -> Prop) {A : Type} (c : io A) : Prop :=
  forall w r w', c w = (r, w') -> R w w'.

(** Every file but [dest] is as before. *)
Definition others_kept (dest : string) (w w' : world) : Prop :=
  forall p, p <> dest -> files w' !! p = files w !! p.





(** ** Reading the progress lines off a trace *)









(** ** Expected traces of the retry loop *)

(** The trace of [k] failed attempts, numbered from [first], each followed
    by a further attempt: a request, then a pause of half a second times
    the attempt number. *)
Definition backoff_trace (url : string) (first : Z) (k : nat) : list event :=
  flat_map (fun attempt => [Get url; Sleep ((1 # 2) * inject_Z attempt)])
           (seqZ first (Z.of_nat k)).

(** ** More example collaborators *)

(** A two by two raster whose pixels record their own position. *)
Definition example_tile : image :=
  {| size := (2, 2); getpixel := fun i j => (i, j, 0, 255) |}.

(** As [example_env], with an imaging library that decodes every non-empty
    file to [example_tile]. *)
Definition decoding_env (server : string -> Z -> nat -> reply)
    (writable : string -> bool) : environment :=
  {| http_get := server;
     write_allowed := writable;
     mkdir_allowed := fun _ => true;
     resolve := example_resolve;
     png_decode := fun _ => Ok example_tile;
     image_encode := example_encode;
     alpha_composite := fun _ img => img;
     script_dir := "/opt/wplace";
     libm_tan := tan_equator;
     libm_cos := cos_equator;
     libm_log := log_equator |}.

(** ** Reading the pauses off a trace *)




(** Store and request counter are as before. *)
Definition state_kept (w w' : world) : Prop :=
  files w' = files w /\ requests w' = requests w.


(** ** The stages of a run *)

(** The tile directory that [main] settles on. *)
Definition tiles_dir_of (env : environment) (a : args) : string :=
  match temp_dir a with
  | Some d => if String.eqb d "" then path_join (script_dir env) "tmp" else d
  | None => path_join (script_dir env) "tmp"
  end.

(** The world once [main] has printed the centre tile and, for an even
    grid size, the warning. *)
Definition after_banner (a : args) (cx cy : Z) (w : world) : world :=
  {| files := files w; requests := requests w;
     trace := trace w ++ PrintCenter cx cy
                      :: (if grid_size a mod 2 =? 0 then [WarnEvenGrid] else []) |}.

(** The world in which the script stops with an error. *)
Definition stopped (e : exn) (w : world) : world :=
  {| files := files w; requests := requests w; trace := trace w ++ [PrintError e] |}.




(** ** Characters of file names *)

Fixpoint string_forallb (P : ascii -> bool) (s : string) : bool :=
  match s with
  | EmptyString => true
  | String c s' => P c && string_forallb P s'
  end.

(** The characters of a decimal numeral: digits and the minus sign. *)
Definition numeral_char (c : ascii) : bool :=
  match c with
  | "0" | "1" | "2" | "3" | "4" | "5" | "6" | "7" | "8" | "9" | "-" => true
  | _ => false
  end%char.

(** ** The colour parser

    Strings hold ASCII characters, as a colour typed on a command line
    does. *)

(** [c.isspace()] on ASCII: tab to carriage return, the four separators
    and the space. *)
Definition py_isspace (c : ascii) : bool :=
  let n := nat_of_ascii c in
  ((9 <=? n) && (n <=? 13) || (28 <=? n) && (n <=? 32))%nat.

Fixpoint lstrip (s : string) : string :=
  match s with
  | EmptyString => EmptyString
  | String c s' => if py_isspace c then lstrip s' else s
  end.

(** [s.strip()]. *)
Definition strip (s : string) : string :=
  String.rev (lstrip (String.rev (lstrip s))).

(** The blanks that [int] strips from an ASCII string: tab to carriage
    return and the space; the four separators are not among them. *)
Definition int_blank (c : ascii) : bool :=
  let n := nat_of_ascii c in
  ((9 <=? n) && (n <=? 13) || (n =? 32))%nat.

(** The value of a hexadecimal digit. *)
Definition hex_digit (c : ascii) : option Z :=
  let n := Z.of_nat (nat_of_ascii c) in
  if (48 <=? n) && (n <=? 57) then Some (n - 48)
  else if (97 <=? n) && (n <=? 102) then Some (n - 87)
  else if (65 <=? n) && (n <=? 70) then Some (n - 55)
  else None.

(** [int(s, 16)] for a string [s] of the two characters [c1], [c2]: two
    digits; or one digit after a sign or a blank, or before a blank,
    since [int] strips blanks and reads a sign. *)
Definition int_base16 (c1 c2 : ascii) : result Z :=
  match hex_digit c1, hex_digit c2 with
  | Some h, Some l => Ok (16 * h + l)
  | None, Some l =>
      if int_blank c1 || Ascii.eqb c1 "+" then Ok l
      else if Ascii.eqb c1 "-" then Ok (- l)
      else Raise ValueError
  | Some h, None => if int_blank c2 then Ok h else Raise ValueError
  | None, None => Raise ValueError
  end.

(** [if t.startswith("#"): t = t[1:]]. *)
Definition drop_hash (t : string) : string :=
  match t with
  | String c t' => if Ascii.eqb c "#" then t' else t
  | EmptyString => t
  end.

(** [if t.lower().startswith("0x"): t = t[2:]]. *)
Definition drop_0x (t : string) : string :=
  match t with
  | String c0 (String c1 t') =>
      if Ascii.eqb c0 "0" && (Ascii.eqb c1 "x" || Ascii.eqb c1 "X") then t' else t
  | _ => t
  end.

Definition parse_hex_color (s : string) : result (Z * Z * Z * Z) :=
  let t := strip s in
  let t := drop_hash t in
  let t := drop_0x t in
  match t with
  | String c0 (String c1 (String c2 EmptyString)) =>
      (let? r := int_base16 c0 c0 in
       let? g := int_base16 c1 c1 in
       let? b := int_base16 c2 c2 in
       Ok (r, g, b, 255))%res
  | String c0 (String c1 (String c2 (String c3 (String c4 (String c5
      EmptyString))))) =>
      (let? r := int_base16 c0 c1 in
       let? g := int_base16 c2 c3 in
       let? b := int_base16 c4 c5 in
       Ok (r, g, b, 255))%res
  | String c0 (String c1 (String c2 (String c3 (String c4 (String c5
      (String c6 (String c7 EmptyString))))))) =>
      (let? r := int_base16 c0 c1 in
       let? g := int_base16 c2 c3 in
       let? b := int_base16 c4 c5 in
       let? a := int_base16 c6 c7 in
       Ok (r, g, b, a))%res
  | _ => Raise ValueError
  end.

(** * Properties *)

(** ** Helper lemmas on results *)

Lemma rbind_ok {A B : Type} (r : result A) (k : A -> result B) (b : B) :
  rbind r k = Ok b -> exists a, r = Ok a /\ k a = Ok b.
Proof. destruct r as [a|e]; simpl; [eauto | discriminate]. Qed.

Ltac invert_rbind :=
  repeat match goal with
         | H : rbind _ _ = Ok _ |- _ =>
             let a := fresh "v" in
             let Ha := fresh "Hv" in
             apply rbind_ok in H; destruct H as (a & Ha & H)
         end.

Lemma pow2_pos (z : Z) : 0 <= z -> 0 < 2 ^ z.
Proof. intros Hz. apply Z.pow_pos_nonneg; lia. Qed.

(** ** The projection *)

(** Every zoom from 0 to 1023 has a tile count that converts to a float;
    checked zoom by zoom. *)
Lemma zoom_converts_all : forallb zoom_converts (seqZ 0 1024) = true.
Proof. vm_compute. reflexivity. Qed.

Lemma float_of_int_pow2 (z : Z) :
  0 <= z <= 1023 -> float_of_int (2 ^ z) = Ok (tile_count_float z).
Proof.
  intros Hz. unfold float_of_int. fold (tile_count_float z).
  assert (H : zoom_converts z = true).
  { pose proof zoom_converts_all as Hall. rewrite forallb_forall in Hall.
    apply Hall. apply list_elem_of_In, elem_of_seqZ. lia. }
  unfold zoom_converts in H. apply negb_true_iff in H. rewrite H. reflexivity.
Qed.

Lemma int_of_float_finite (f : float) :
  float_is_finite f = true -> exists n, int_of_float f = Ok n.
Proof.
  unfold float_is_finite, int_of_float.
  destruct (Prim2SF f); intros H; try discriminate H; eauto.
Qed.

Lemma int_of_float_not_finite (f : float) :
  float_is_finite f = false -> exists e, int_of_float f = Raise e.
Proof.
  unfold float_is_finite, int_of_float.
  destruct (Prim2SF f); intros H; try discriminate H; eauto.
Qed.

(** C1 (amended): at a zoom [z >= 0], whatever [latlon_to_tile] returns
    lies in [[0, 2^z)] on both axes. At a zoom from 0 to 1023, when the C
    library returns the tangent, a cosine that is not zero and the
    logarithm, the function returns such a pair if both scaled
    coordinates are finite, and raises if one of them is not. *)
Theorem latlon_to_tile_in_bounds
    (math_tan math_cos math_log : float -> result float)
    (lat lon : float) (z : Z) :
  0 <= z ->
  (forall x y,
     latlon_to_tile math_tan math_cos math_log lat lon z = Ok (x, y) ->
     0 <= x < 2 ^ z /\ 0 <= y < 2 ^ z) /\
  (z <= 1023 ->
   forall t c l,
     math_tan (math_radians (clamp_latitude lat)) = Ok t ->
     math_cos (math_radians (clamp_latitude lat)) = Ok c ->
     PrimFloat.eqb c 0%float = false ->
     math_log (PrimFloat.add t (PrimFloat.div 1%float c)) = Ok l ->
     if float_is_finite (x_float_of lon z) && float_is_finite (y_float_of l z)
     then exists x y,
            latlon_to_tile math_tan math_cos math_log lat lon z = Ok (x, y)
            /\ 0 <= x < 2 ^ z /\ 0 <= y < 2 ^ z
     else exists e, latlon_to_tile math_tan math_cos math_log lat lon z = Raise e).
Proof.
  intros Hz. pose proof (pow2_pos z Hz) as Hn.
  assert (Hbounds : forall x y,
            latlon_to_tile math_tan math_cos math_log lat lon z = Ok (x, y) ->
            0 <= x < 2 ^ z /\ 0 <= y < 2 ^ z).
  { intros x y H. unfold latlon_to_tile in H. cbv zeta in H. invert_rbind.
    injection H as <- <-. split; [apply Z.mod_pos_bound; exact Hn | lia]. }
  split; [exact Hbounds|].
  intros Hz' t c l Htan Hcos Hc Hlog.
  assert (Hrun : latlon_to_tile math_tan math_cos math_log lat lon z
                 = (let? xi := int_of_float (x_float_of lon z) in
                    let? yi := int_of_float (y_float_of l z) in
                    Ok (xi mod 2 ^ z, Z.max 0 (Z.min (2 ^ z - 1) yi)))%res).
  { unfold latlon_to_tile. cbv zeta. fold (clamp_latitude lat).
    rewrite (float_of_int_pow2 z) by lia. cbn [rbind].
    rewrite Htan, Hcos. cbn [rbind]. unfold py_div_float. rewrite Hc. cbn [rbind].
    rewrite Hlog. reflexivity. }
  destruct (float_is_finite (x_float_of lon z)) eqn:Ex; cbn [andb].
  - destruct (int_of_float_finite _ Ex) as (xi & Hxi).
    destruct (float_is_finite (y_float_of l z)) eqn:Ey.
    + destruct (int_of_float_finite _ Ey) as (yi & Hyi).
      rewrite Hxi, Hyi in Hrun. cbn [rbind] in Hrun.
      eexists _, _. split; [exact Hrun|]. apply Hbounds, Hrun.
    + destruct (int_of_float_not_finite _ Ey) as (e & Hyi).
      rewrite Hxi, Hyi in Hrun. exists e. exact Hrun.
  - destruct (int_of_float_not_finite _ Ex) as (e & Hxi).
    rewrite Hxi in Hrun. exists e. exact Hrun.
Qed.

Lemma latlon_to_tile_in_bounds_witness :
  0 <= 11 <= 1023 /\
  float_is_finite (x_float_of (-106.60)%float 11) = true /\
  float_is_finite (y_float_of 0%float 11) = true /\
  exists x y,
    latlon_to_tile tan_equator cos_equator log_equator 0%float (-106.60)%float 11
    = Ok (x, y)
    /\ 0 <= x < 2 ^ 11 /\ 0 <= y < 2 ^ 11.
Proof.
  split; [lia|]. split; [vm_compute; reflexivity|]. split; [vm_compute; reflexivity|].
  pose proof (proj2 (latlon_to_tile_in_bounds tan_equator cos_equator log_equator
                       0%float (-106.60)%float 11 ltac:(lia))
                ltac:(lia) 0%float 1%float 0%float
                eq_refl eq_refl eq_refl eq_refl) as H.
  replace (float_is_finite (x_float_of (-106.60)%float 11)
           && float_is_finite (y_float_of 0%float 11)) with true in H
    by (vm_compute; reflexivity).
  exact H.
Defined.

(** C1 as stated fails: the function has error conditions. At the locked
    zoom 11 a longitude of 1e308 makes the scaled abscissa infinite and
    [int] raises; at zoom 1024 the tile count 2^1024 does not convert to a
    float. *)
Lemma latlon_to_tile_raises :
  latlon_to_tile tan_equator cos_equator log_equator 0%float 1e308%float 11
    = Raise OverflowError /\
  latlon_to_tile tan_equator cos_equator log_equator 0%float 0%float 1024
    = Raise OverflowError.
Proof. split; vm_compute; reflexivity. Qed.



(** ** Wrap and clamp *)

(** C3: [wrap_clamp_tile] wraps x modulo [n = 2^z] into [[0, n)] and clamps
    y into [[0, n-1]]; a negative abscissa down to [-n] wraps to
    [n - |x|], a negative ordinate clamps to 0 and not to [n - |y|]. *)
Theorem wrap_clamp_tile_spec (x y z : Z) :
  0 <= z ->
  let n := 2 ^ z in
  let x' := fst (wrap_clamp_tile x y z) in
  let y' := snd (wrap_clamp_tile x y z) in
  (x' = x mod n /\ x' = (Z.rem x n + n) mod n /\ 0 <= x' < n) /\
  (y' = (if y <? 0 then 0 else if n - 1 <? y then n - 1 else y)
   /\ 0 <= y' <= n - 1) /\
  (- n <= x < 0 -> x' = n - Z.abs x) /\
  (y < 0 -> y' = 0 /\ (- n < y -> y' <> n - Z.abs y)).
Proof.
  intros Hz n x' y'. pose proof (pow2_pos z Hz) as Hn. fold n in Hn.
  subst x' y'. unfold wrap_clamp_tile. fold n. simpl.
  pose proof (Z.mod_pos_bound x n Hn) as Hx.
  repeat split; try lia.
  - pose proof (Z.quot_rem' x n) as Hq.
    replace (Z.rem x n + n) with (x + (1 - Z.quot x n) * n) by lia.
    rewrite Z.mod_add by lia. reflexivity.
  - destruct (y <? 0) eqn:E1; [lia|]. destruct (n - 1 <? y) eqn:E2; lia.
  - intros [H1 H2]. rewrite Z.abs_neq by lia.
    destruct (Z.eq_dec x (- n)) as [->|Hne].
    + replace (- n) with (0 + (-1) * n) by lia. rewrite Z.mod_add by lia.
      rewrite Z.mod_0_l by lia. lia.
    + replace x with ((n + x) + (-1) * n) at 1 by lia. rewrite Z.mod_add by lia.
      rewrite Z.mod_small by lia. lia.
Qed.

Lemma wrap_clamp_tile_spec_witness :
  0 <= 11 /\
  fst (wrap_clamp_tile (0 + -3) (0 + -2) 11) = 2 ^ 11 - Z.abs (-3) /\
  snd (wrap_clamp_tile (0 + -3) (0 + -2) 11) = 0.
Proof.
  split; [lia|].
  pose proof (wrap_clamp_tile_spec (0 + -3) (0 + -2) 11 ltac:(lia)) as H.
  cbv zeta in H. destruct H as (_ & _ & Hx & Hy). split.
  - apply Hx. lia.
  - apply Hy. lia.
Defined.

(** ** The grid *)

Lemma lookup_flat_map_rows {A B : Type} (f : A -> list B) (m : nat) (l : list A)
    (i j : nat) (a : A) :
  (forall a', length (f a') = m) ->
  l !! i = Some a -> (j < m)%nat ->
  flat_map f l !! (i * m + j)%nat = f a !! j.
Proof.
  intros Hlen. revert i. induction l as [|a0 l IH]; intros i Hi Hj.
  - rewrite lookup_nil in Hi. discriminate.
  - simpl. destruct i as [|i]; simpl in *.
    + injection Hi as ->. apply lookup_app_l. rewrite Hlen. exact Hj.
    + rewrite lookup_app_r by (rewrite Hlen; lia).
      rewrite Hlen. replace (m + i * m + j - m)%nat with (i * m + j)%nat by lia.
      apply IH; assumption.
Qed.

Lemma length_flat_map_rows {A B : Type} (f : A -> list B) (m : nat) (l : list A) :
  (forall a', length (f a') = m) ->
  length (flat_map f l) = (length l * m)%nat.
Proof.
  intros Hlen. induction l as [|a l IH]; simpl; [reflexivity|].
  rewrite length_app, Hlen, IH. reflexivity.
Qed.

Lemma offset_range_seqZ (n : Z) :
  1 <= n -> offset_range n = seqZ (- (n / 2)) n.
Proof.
  intros Hn. unfold offset_range, py_range. cbv zeta.
  pose proof (Z.div_mod n 2 ltac:(lia)) as Hd.
  pose proof (Z.mod_pos_bound n 2 ltac:(lia)) as Hm.
  destruct (n mod 2 =? 0) eqn:E; f_equal; lia.
Qed.

Lemma build_coords_meta_rows (cx cy n : Z) :
  1 <= n ->
  build_coords_meta cx cy n
  = flat_map
      (fun dy : Z =>
         map (fun dx : Z =>
                let '(wx, wy) := wrap_clamp_tile (cx + dx) (cy + dy) TILE_ZOOM in
                (wx, wy, dx, dy)) (seqZ (- (n / 2)) n))
      (seqZ (- (n / 2)) n).
Proof.
  intros Hn. unfold build_coords_meta. cbv zeta.
  rewrite (offset_range_seqZ n Hn). reflexivity.
Qed.

Lemma build_coords_meta_length (cx cy n : Z) :
  1 <= n -> length (build_coords_meta cx cy n) = Z.to_nat (n * n).
Proof.
  intros Hn. rewrite (build_coords_meta_rows cx cy n Hn).
  rewrite (length_flat_map_rows _ (Z.to_nat n)).
  - rewrite length_seqZ. nia.
  - intros dy. rewrite length_map, length_seqZ. reflexivity.
Qed.

Lemma build_coords_meta_lookup (cx cy n k : Z) :
  1 <= n -> 0 <= k < n * n ->
  build_coords_meta cx cy n !! Z.to_nat k
  = Some (fst (wrap_clamp_tile (cx + (k mod n - n / 2))
                               (cy + (k / n - n / 2)) TILE_ZOOM),
          snd (wrap_clamp_tile (cx + (k mod n - n / 2))
                               (cy + (k / n - n / 2)) TILE_ZOOM),
          k mod n - n / 2, k / n - n / 2).
Proof.
  intros Hn Hk. rewrite (build_coords_meta_rows cx cy n Hn).
  set (h := n / 2). set (dx := k mod n - h). set (dy := k / n - h).
  assert (Hq : 0 <= k / n < n).
  { split; [apply Z.div_pos; lia | apply Z.div_lt_upper_bound; lia]. }
  pose proof (Z.mod_pos_bound k n ltac:(lia)) as Hr.
  pose proof (Z.div_mod k n ltac:(lia)) as Hkd.
  replace (Z.to_nat k)
    with (Z.to_nat (k / n) * Z.to_nat n + Z.to_nat (k mod n))%nat by nia.
  rewrite (lookup_flat_map_rows _ (Z.to_nat n) _ _ _ dy).
  - rewrite list_lookup_fmap.
    rewrite lookup_seqZ_lt by lia. simpl.
    replace (- h + Z.of_nat (Z.to_nat (k mod n))) with dx by (subst dx; lia).
    destruct (wrap_clamp_tile (cx + dx) (cy + dy) TILE_ZOOM). reflexivity.
  - intros dy'. rewrite length_map, length_seqZ. reflexivity.
  - rewrite lookup_seqZ_lt by lia. f_equal. subst dy. lia.
  - lia.
Qed.

(** C2: for [n >= 1] the grid has exactly [n * n] cells; the cell at
    position [k] (counting from 0) has offsets [dx = k mod n - h] and
    [dy = k / n - h] with [h = n / 2], that is row-major order with both
    offsets ascending; the offsets met are exactly those of
    [[-h, h]] for odd [n] and of [[-h, h - 1]] for even [n]. *)
Theorem build_coords_meta_grid (cx cy n : Z) :
  1 <= n ->
  let h := n / 2 in
  let top := if n mod 2 =? 0 then h - 1 else h in
  let cells := build_coords_meta cx cy n in
  Z.of_nat (length cells) = n * n /\
  (forall k, 0 <= k < n * n ->
     let dx := k mod n - h in
     let dy := k / n - h in
     cells !! Z.to_nat k
     = Some (fst (wrap_clamp_tile (cx + dx) (cy + dy) TILE_ZOOM),
             snd (wrap_clamp_tile (cx + dx) (cy + dy) TILE_ZOOM), dx, dy)) /\
  (forall dx dy,
     (exists wx wy, (wx, wy, dx, dy) ∈ cells)
     <-> (- h <= dx <= top /\ - h <= dy <= top)).
Proof.
  intros Hn h top cells.
  assert (Htop : top = n - 1 - h).
  { subst top h. pose proof (Z.div_mod n 2 ltac:(lia)) as Hd.
    pose proof (Z.mod_pos_bound n 2 ltac:(lia)) as Hm.
    destruct (n mod 2 =? 0) eqn:E; lia. }
  split; [|split].
  - subst cells. rewrite (build_coords_meta_length cx cy n Hn). nia.
  - intros k Hk. apply (build_coords_meta_lookup cx cy n k Hn Hk).
  - subst cells. rewrite (build_coords_meta_rows cx cy n Hn). fold h.
    intros dx dy. split.
    + intros (wx & wy & Hin).
      apply list_elem_of_In, in_flat_map in Hin.
      destruct Hin as (dy' & Hdy & Hin).
      apply list_elem_of_In, elem_of_seqZ in Hdy.
      apply in_map_iff in Hin.
      destruct Hin as (dx' & Heq & Hdx).
      apply list_elem_of_In, elem_of_seqZ in Hdx.
      destruct (wrap_clamp_tile (cx + dx') (cy + dy') TILE_ZOOM).
      injection Heq as _ _ <- <-. lia.
    + intros [Hdx Hdy].
      destruct (wrap_clamp_tile (cx + dx) (cy + dy) TILE_ZOOM) as [wx wy] eqn:E.
      exists wx, wy. apply list_elem_of_In, in_flat_map.
      exists dy. split.
      * apply list_elem_of_In, elem_of_seqZ. lia.
      * apply in_map_iff. exists dx. split.
        -- rewrite E. reflexivity.
        -- apply list_elem_of_In, elem_of_seqZ. lia.
Qed.

Lemma build_coords_meta_grid_witness :
  1 <= 4 /\
  Z.of_nat (length (build_coords_meta 512 384 4)) = 4 * 4 /\
  build_coords_meta 512 384 4 !! Z.to_nat 5 = Some (511, 383, -1, -1).
Proof.
  split; [lia|].
  pose proof (build_coords_meta_grid 512 384 4 ltac:(lia)) as H.
  cbv zeta in H. destruct H as (Hlen & Hnth & _). split.
  - exact Hlen.
  - rewrite (Hnth 5) by lia. vm_compute. reflexivity.
Defined.

(** ** Networking *)

Lemma session_get_failure env url timeout w :
  remote_failure (http_get env url timeout (requests w)) = true ->
  session_get env url timeout w
  = (Raise RequestException,
     {| files := files w; requests := S (requests w);
        trace := trace w ++ [Get url] |}).
Proof.
  unfold session_get, remote_failure. intros H.
  destruct (http_get env url timeout (requests w)) as [s c|]; [|reflexivity].
  rewrite H. reflexivity.
Qed.





(** ** Frame reasoning for [io] computations *)

Section Frames.

Variable R : world -> world -> Prop.
Hypothesis R_refl : forall w, R w w.
Hypothesis R_trans : forall w1 w2 w3, R w1 w2 -> R w2 w3 -> R w1 w3.

Local Abbreviation respects := (respects R).

Lemma respects_ret {A : Type} (a : A) : respects (ret a).
Proof. intros w r w' H. injection H as _ <-. apply R_refl. Qed.


Lemma respects_bind {A B : Type} (c : io A) (k : A -> io B) :
  respects c -> (forall a, respects (k a)) -> respects (bind c k).
Proof.
  intros Hc Hk w r w' H. unfold bind in H.
  destruct (c w) as [[a|e] w1] eqn:E.
  - eapply R_trans; [eapply Hc, E | eapply Hk, H].
  - injection H as _ <-. eapply Hc, E.
Qed.

Lemma respects_try_except {A : Type} (body handler : io A) :
  respects body -> respects handler -> respects (try_except body handler).
Proof.
  intros Hb Hh w r w' H. unfold try_except in H.
  destruct (body w) as [[a|e] w1] eqn:E.
  - injection H as _ <-. eapply Hb, E.
  - eapply R_trans; [eapply Hb, E | eapply Hh, H].
Qed.

Lemma respects_if {A : Type} (b : bool) (c1 c2 : io A) :
  respects c1 -> respects c2 -> respects (if b then c1 else c2).
Proof. destruct b; auto. Qed.

Variable env : environment.

(** The events that [R] tolerates in the trace, with or without a request
    being counted. *)
Variable allowed : event -> Prop.
Hypothesis R_emit : forall w e, allowed e ->
  R w {| files := files w; requests := requests w; trace := trace w ++ [e] |}.
Hypothesis R_request : forall w e, allowed e ->
  R w {| files := files w; requests := S (requests w);
         trace := trace w ++ [e] |}.

Lemma respects_emit e : allowed e -> respects (emit e).
Proof. intros He w r w' H. injection H as _ <-. apply R_emit, He. Qed.

Lemma respects_session_get url timeout :
  allowed (Get url) -> respects (session_get env url timeout).
Proof.
  intros He w r w' H. unfold session_get in H.
  destruct (http_get env url timeout (requests w)) as [s c|].
  - destruct ((400 <=? s) && (s <? 600)); injection H as _ <-;
      apply R_request, He.
  - injection H as _ <-. apply R_request, He.
Qed.



Lemma respects_print_progress total index ms printed :
  (forall pct i t, allowed (PrintProgress pct i t)) ->
  respects (print_progress total index ms printed).
Proof.
  intros He. revert printed. induction ms as [|m rest IH]; intros printed; simpl.
  - apply respects_ret.
  - apply respects_if; [|apply IH].
    apply respects_bind; [apply respects_emit, He | intros _; apply IH].
Qed.

(** Given that writes to [dest] respect [R], so does the whole retry loop. *)
Lemma respects_download_attempts url dest timeout retries attempts :
  allowed (Get url) -> (forall s, allowed (Sleep s)) ->
  (forall data, respects (write_bytes env dest data)) ->
  respects (download_attempts env url dest timeout retries attempts).
Proof.
  intros Hget Hsleep Hwr.
  assert (Hbody : respects (content <- session_get env url timeout ;;
                            write_bytes env dest content)%io).
  { apply respects_bind; [apply respects_session_get, Hget | exact Hwr]. }
  induction attempts as [|attempt rest IH]; simpl.
  - apply respects_ret.
  - intros w r w' H.
    destruct ((content <- session_get env url timeout ;;
               write_bytes env dest content)%io w) as [[u|e] w1] eqn:E.
    + injection H as _ <-. eapply Hbody, E.
    + eapply R_trans; [eapply Hbody, E|].
      destruct (retries <=? attempt).
      * eapply (respects_bind _ (fun _ => _)); [| |exact H].
        -- apply respects_try_except; [apply Hwr | apply respects_ret].
        -- intros _. exact IH.
      * eapply (respects_bind _ (fun _ => _)); [| |exact H].
        -- apply respects_emit, Hsleep.
        -- intros _. exact IH.
Qed.




End Frames.

(** *** Relations on the store alone *)

Section StoreFrames.

Variable R : world -> world -> Prop.
Hypothesis R_refl : forall w, R w w.
Hypothesis R_trans : forall w1 w2 w3, R w1 w2 -> R w2 w3 -> R w1 w3.
Hypothesis R_files : forall w w', files w' = files w -> R w w'.
Variable env : environment.

Lemma store_respects_download_tile x y z dest timeout retries :
  (forall data, respects R (write_bytes env dest data)) ->
  respects R (download_tile env x y z dest timeout retries).
Proof.
  intros Hwr. unfold download_tile.
  apply (respects_download_attempts R R_refl R_trans env (fun _ => True));
    try (intros; apply R_files; reflexivity); auto.
Qed.



End StoreFrames.


Lemma others_kept_files dest w w' : files w' = files w -> others_kept dest w w'.
Proof. intros H p _. rewrite H. reflexivity. Qed.

Lemma others_kept_download_tile env x y z dest timeout retries :
  respects (others_kept dest) (download_tile env x y z dest timeout retries).
Proof.
  apply store_respects_download_tile;
    try (intros; apply others_kept_files; reflexivity).
  - intros w1 w2 w3 H1 H2 p Hp. rewrite (H2 p Hp). apply H1, Hp.
  - apply others_kept_files.
  - intros data w r w' H p Hp. unfold write_bytes in H.
    destruct (write_allowed env dest); injection H as _ <-; [|reflexivity].
    simpl. apply lookup_insert_ne. congruence.
Qed.

(** ** Storage failures *)








(** ** Stitching *)

Lemma safe_open_png_returns env fs p : exists r, safe_open_png env fs p = Ok r.
Proof.
  unfold safe_open_png, try_result.
  destruct (negb (path_exists fs p) || (st_size fs p =? 0)); [eauto|].
  destruct (image_open env fs p); simpl; eauto.
Qed.

Lemma safe_open_png_absent env fs p :
  safe_open_png env fs p = Ok None
  <-> (fs !! p = None \/ fs !! p = Some []
       \/ exists data e, fs !! p = Some data /\ png_decode env data = Raise e).
Proof.
  unfold safe_open_png, try_result, path_exists, st_size, image_open.
  destruct (fs !! p) as [data|] eqn:E.
  - rewrite bool_decide_true by eauto. simpl.
    destruct data as [|b data]; simpl.
    + split; [auto | reflexivity].
    + destruct (png_decode env (b :: data)) as [im|e] eqn:D; simpl.
      * split; [discriminate|].
        intros [H|[H|(d & e & H & H')]]; try discriminate.
        injection H as <-. congruence.
      * split; [|reflexivity]. intros _. right. right. eauto.
  - rewrite bool_decide_false by (intros [? ?]; discriminate). simpl.
    split; [auto | reflexivity].
Qed.

Lemma getpixel_paste_outside canvas tile px py i j :
  i < px \/ j < py ->
  getpixel (paste canvas tile (px, py)) i j = getpixel canvas i j.
Proof.
  intros H. unfold paste. destruct (size tile) as [tw th]. simpl.
  destruct (px <=? i) eqn:E1; simpl; [|reflexivity].
  destruct (i <? px + tw); simpl; [|reflexivity].
  destruct (py <=? j) eqn:E2; simpl; [|reflexivity]. lia.
Qed.

Lemma getpixel_paste_inside canvas tile px py i j :
  0 <= i < fst (size tile) -> 0 <= j < snd (size tile) ->
  getpixel (paste canvas tile (px, py)) (px + i) (py + j) = getpixel tile i j.
Proof.
  intros Hi Hj. unfold paste. destruct (size tile) as [tw th]. simpl in *.
  replace (px <=? px + i) with true by (symmetry; apply Z.leb_le; lia).
  replace (px + i <? px + tw) with true by (symmetry; apply Z.ltb_lt; lia).
  replace (py <=? py + j) with true by (symmetry; apply Z.leb_le; lia).
  replace (py + j <? py + th) with true by (symmetry; apply Z.ltb_lt; lia).
  simpl. f_equal; lia.
Qed.

Lemma size_paste canvas tile box : size (paste canvas tile box) = size canvas.
Proof. unfold paste. destruct box, (size tile). reflexivity. Qed.

Lemma clip_rgba_byte_channels color : byte_channels color -> clip_rgba color = color.
Proof.
  destruct color as [[[r g] b] a]. unfold byte_channels, clip_rgba, clip8.
  intros (Hr & Hg & Hb & Ha). repeat f_equal; lia.
Qed.

Lemma Image_new_ok w h color :
  0 <= w -> 0 <= h ->
  Image_new (w, h) color
  = Ok {| size := (w, h); getpixel := fun _ _ => clip_rgba color |}.
Proof.
  intros Hw Hh. unfold Image_new.
  replace (w <? 0) with false by (symmetry; apply Z.ltb_ge; lia).
  replace (h <? 0) with false by (symmetry; apply Z.ltb_ge; lia).
  reflexivity.
Qed.

Section Stitch.

Variable env : environment.
Variable fs : gmap string (list Byte.byte).
Variable tiles_dir : string.
Variables tw th half : Z.
Variable bg_rgba : option (Z * Z * Z * Z).
Hypothesis tw_nonneg : 0 <= tw.
Hypothesis th_nonneg : 0 <= th.

Local Abbreviation fill :=
  (clip_rgba match bg_rgba with Some c => c | None => (0, 0, 0, 0) end).

Lemma cell_tile_returns x y :
  exists tile, cell_tile env fs tiles_dir tw th bg_rgba x y = Ok tile.
Proof.
  unfold cell_tile.
  destruct (safe_open_png_returns env fs (tile_path tiles_dir x y)) as ([im|] & ->);
    cbn [rbind]; [eauto|].
  rewrite Image_new_ok by assumption. eauto.
Qed.

Lemma cell_tile_absent x y :
  safe_open_png env fs (tile_path tiles_dir x y) = Ok None ->
  cell_tile env fs tiles_dir tw th bg_rgba x y
  = Ok {| size := (tw, th); getpixel := fun _ _ => fill |}.
Proof.
  intros H. unfold cell_tile. rewrite H. cbn [rbind].
  apply Image_new_ok; assumption.
Qed.

Lemma paste_cells_returns cells canvas :
  exists canvas',
    paste_cells env fs tiles_dir tw th half bg_rgba cells canvas = Ok canvas'
    /\ size canvas' = size canvas.
Proof.
  revert canvas. induction cells as [|[[[x y] dx] dy] rest IH]; intros canvas;
    cbn [paste_cells].
  - eauto.
  - destruct (cell_tile_returns x y) as (tile & ->). cbn [rbind].
    destruct (IH (paste canvas tile ((dx + half) * tw, (dy + half) * th)))
      as (canvas' & Hrun & Hsize).
    exists canvas'. split; [exact Hrun|]. rewrite Hsize. apply size_paste.
Qed.

(** A pixel to the left of, or above, the origin of every cell that
    remains to be pasted keeps its value. *)
Lemma paste_cells_keeps cells canvas canvas' i j :
  paste_cells env fs tiles_dir tw th half bg_rgba cells canvas = Ok canvas' ->
  Forall (fun cell : Z * Z * Z * Z =>
            let '(_, _, dx, dy) := cell in
            i < (dx + half) * tw \/ j < (dy + half) * th) cells ->
  getpixel canvas' i j = getpixel canvas i j.
Proof.
  revert canvas. induction cells as [|[[[x y] dx] dy] rest IH];
    intros canvas Hrun Hall; cbn [paste_cells] in Hrun.
  - injection Hrun as <-. reflexivity.
  - apply rbind_ok in Hrun. destruct Hrun as (tile & _ & Hrun).
    inversion Hall as [|? ? Hhd Htl]; subst.
    rewrite (IH _ Hrun Htl). apply getpixel_paste_outside. exact Hhd.
Qed.

(** The block of an absent tile reads the fill colour in the result, as
    long as the cells pasted after it start to its right or below it. *)
Lemma paste_cells_absent_block cells canvas canvas' (k : nat) x y dx dy i j :
  paste_cells env fs tiles_dir tw th half bg_rgba cells canvas = Ok canvas' ->
  cells !! k = Some (x, y, dx, dy) ->
  safe_open_png env fs (tile_path tiles_dir x y) = Ok None ->
  Forall (fun cell : Z * Z * Z * Z =>
            let '(_, _, dx', dy') := cell in
            (dx + half) * tw + i < (dx' + half) * tw
            \/ (dy + half) * th + j < (dy' + half) * th) (drop (S k) cells) ->
  0 <= i < tw -> 0 <= j < th ->
  getpixel canvas' ((dx + half) * tw + i) ((dy + half) * th + j) = fill.
Proof.
  revert canvas k. induction cells as [|[[[x0 y0] dx0] dy0] rest IH];
    intros canvas k Hrun Hk Habs Hlater Hi Hj.
  - rewrite lookup_nil in Hk. discriminate.
  - cbn [paste_cells] in Hrun. destruct k as [|k]; simpl in Hk, Hlater.
    + injection Hk as -> -> -> ->.
      rewrite (cell_tile_absent x y Habs) in Hrun. cbn [rbind] in Hrun.
      rewrite (paste_cells_keeps _ _ _ _ _ Hrun Hlater).
      rewrite getpixel_paste_inside by (simpl; lia). reflexivity.
    + apply rbind_ok in Hrun. destruct Hrun as (tile & _ & Hrun).
      eapply IH; eassumption.
Qed.

End Stitch.

Lemma safe_open_png_decoded env fs p im :
  safe_open_png env fs p = Ok (Some im) ->
  exists data, png_decode env data = Ok im.
Proof.
  unfold safe_open_png, try_result, image_open.
  destruct (negb (path_exists fs p) || (st_size fs p =? 0)); [discriminate|].
  destruct (fs !! p) as [data|]; simpl; [|discriminate].
  destruct (png_decode env data) as [im'|e] eqn:D; simpl; [|discriminate].
  intros H. injection H as <-. eauto.
Qed.

Lemma infer_tile_size_returns env fs tiles_dir coords_meta :
  (forall data im, png_decode env data = Ok im ->
                   0 <= fst (size im) /\ 0 <= snd (size im)) ->
  exists inferred,
    infer_tile_size env fs tiles_dir coords_meta = Ok inferred
    /\ (forall sz, inferred = Some sz -> 0 <= fst sz /\ 0 <= snd sz).
Proof.
  intros Hdec. induction coords_meta as [|[[[x y] dx] dy] rest IH];
    cbn [infer_tile_size].
  - exists None. split; [reflexivity | discriminate].
  - destruct (safe_open_png_returns env fs (tile_path tiles_dir x y))
      as ([im|] & Hopen); rewrite Hopen; cbn [rbind].
    + exists (Some (size im)). split; [reflexivity|].
      intros sz H. injection H as <-.
      destruct (safe_open_png_decoded _ _ _ _ Hopen) as (data & Hd).
      eapply Hdec, Hd.
    + exact IH.
Qed.

(** C5: [safe_open_png] never raises and answers absence exactly for a
    missing, a zero-length or an undecodable file; and in the canvas that
    [stitch_from_folder] returns for the grid of [main], the block of
    [tw] x [th] pixels at origin [((dx + h) * tw, (dy + h) * th)] of every
    cell whose tile is absent holds the background colour as the imaging
    library stores it, each channel saturated to [0..255], or transparent
    black when none is configured. That is the configured colour itself
    when its channels are bytes. [tw] x [th] is the inferred tile size. *)
Theorem missing_tile_fill env fs tiles_dir cx cy n bg_rgba :
  1 <= n ->
  (forall data im, png_decode env data = Ok im ->
                   0 <= fst (size im) /\ 0 <= snd (size im)) ->
  let cells := build_coords_meta cx cy n in
  let fill := match bg_rgba with Some c => c | None => (0, 0, 0, 0) end in
  let h := n / 2 in
  (forall p, exists r, safe_open_png env fs p = Ok r) /\
  (forall p,
     safe_open_png env fs p = Ok None
     <-> (fs !! p = None \/ fs !! p = Some []
          \/ exists data e, fs !! p = Some data /\ png_decode env data = Raise e)) /\
  (byte_channels fill -> clip_rgba fill = fill) /\
  exists inferred canvas tw th,
    infer_tile_size env fs tiles_dir cells = Ok inferred
    /\ (tw, th) = match inferred with
                  | Some sz => sz
                  | None => DEFAULT_FALLBACK_TILE
                  end
    /\ stitch_from_folder env fs tiles_dir cells n bg_rgba = Ok canvas
    /\ size canvas = (tw * n, th * n)
    /\ forall x y dx dy,
         (x, y, dx, dy) ∈ cells ->
         safe_open_png env fs (tile_path tiles_dir x y) = Ok None ->
         forall i j, 0 <= i < tw -> 0 <= j < th ->
           getpixel canvas ((dx + h) * tw + i) ((dy + h) * th + j)
           = clip_rgba fill.
Proof.
  intros Hn Hdec cells fill h.
  split; [apply safe_open_png_returns|].
  split; [apply safe_open_png_absent|].
  split; [apply clip_rgba_byte_channels|].
  destruct (infer_tile_size_returns env fs tiles_dir cells Hdec)
    as (inferred & Hinf & Hpos).
  set (sz := match inferred with Some sz => sz | None => DEFAULT_FALLBACK_TILE end).
  assert (Hsz : 0 <= fst sz /\ 0 <= snd sz).
  { subst sz. destruct inferred as [sz|]; [apply Hpos; reflexivity|].
    simpl. lia. }
  destruct sz as [tw th] eqn:Esz. simpl in Hsz. destruct Hsz as [Htw Hth].
  destruct (paste_cells_returns env fs tiles_dir tw th h bg_rgba Htw Hth cells
              {| size := (tw * n, th * n); getpixel := fun _ _ => (0, 0, 0, 0) |})
    as (canvas & Hrun & Hsize).
  exists inferred, canvas, tw, th.
  split; [exact Hinf|]. split; [subst sz; congruence|].
  assert (Hstitch : stitch_from_folder env fs tiles_dir cells n bg_rgba = Ok canvas).
  { unfold stitch_from_folder. rewrite Hinf. cbn [rbind]. fold sz. rewrite Esz.
    rewrite Image_new_ok by nia. cbn [rbind]. exact Hrun. }
  split; [exact Hstitch|]. split; [exact Hsize|].
  intros x y dx dy Hin Habs i j Hi Hj.
  apply list_elem_of_lookup in Hin. destruct Hin as (k & Hk).
  pose proof (lookup_lt_Some _ _ _ Hk) as Hklt.
  subst cells. rewrite (build_coords_meta_length cx cy n Hn) in Hklt.
  assert (Hcell := build_coords_meta_lookup cx cy n (Z.of_nat k) Hn ltac:(lia)).
  rewrite Nat2Z.id, Hk in Hcell. injection Hcell as _ _ Hdx Hdy.
  eapply (paste_cells_absent_block env fs tiles_dir tw th h bg_rgba Htw Hth);
    try eassumption.
  apply Forall_lookup. intros m [[[x' y'] dx'] dy'] Hm.
  rewrite lookup_drop in Hm. change (S k + m)%nat with (S (k + m)) in Hm.
  pose proof (lookup_lt_Some _ _ _ Hm) as Hmlt.
  rewrite (build_coords_meta_length cx cy n Hn) in Hmlt.
  assert (Hcell := build_coords_meta_lookup cx cy n (Z.of_nat (S (k + m))) Hn ltac:(lia)).
  rewrite Nat2Z.id, Hm in Hcell. injection Hcell as _ _ Hdx' Hdy'.
  fold h in Hdx, Hdy, Hdx', Hdy'.
  set (a := Z.of_nat k) in *. set (b := Z.of_nat (S (k + m))) in *.
  clearbody h.
  assert (Hab : a < b) by (subst a b; lia).
  assert (Ha : 0 <= a) by (subst a; lia).
  pose proof (Z.div_mod a n ltac:(lia)) as Hda.
  pose proof (Z.div_mod b n ltac:(lia)) as Hdb.
  pose proof (Z.mod_pos_bound a n ltac:(lia)) as Hra.
  pose proof (Z.mod_pos_bound b n ltac:(lia)) as Hrb.
  replace (dx + h) with (a mod n) by lia.
  replace (dy + h) with (a / n) by lia.
  replace (dx' + h) with (b mod n) by lia.
  replace (dy' + h) with (b / n) by lia.
  destruct (Z.lt_ge_cases (a / n) (b / n)) as [Hrow|Hrow].
  - right. nia.
  - left. assert (a / n = b / n) by nia. nia.
Qed.

Lemma missing_tile_fill_witness :
  1 <= 3 /\
  exists canvas,
    stitch_from_folder (example_env server_down (fun _ => true)) ∅ "tmp"
      (build_coords_meta 512 384 3) 3 (Some (245, 245, 245, 255)) = Ok canvas
    /\ size canvas = (3000, 3000)
    /\ getpixel canvas 1000 1000 = (245, 245, 245, 255).
Proof.
  split; [lia|].
  destruct (missing_tile_fill (example_env server_down (fun _ => true)) ∅ "tmp"
              512 384 3 (Some (245, 245, 245, 255)))
    as (_ & _ & _ & inferred & canvas & tw & th & Hinf & Hsz & Hrun & Hsize & Hpix).
  - lia.
  - intros data im H. discriminate H.
  - vm_compute in Hinf. injection Hinf as <-. injection Hsz as -> ->.
    exists canvas. split; [exact Hrun|]. split; [exact Hsize|].
    assert (Hin : (512, 384, 0, 0) ∈ build_coords_meta 512 384 3).
    { apply (list_elem_of_lookup_2 _ 4%nat). vm_compute. reflexivity. }
    assert (Habs : safe_open_png (example_env server_down (fun _ => true)) ∅
                     (tile_path "tmp" 512 384) = Ok None).
    { vm_compute. reflexivity. }
    apply (Hpix 512 384 0 0 Hin Habs 0 0); lia.
Defined.

(** ** The cache check of the download loop *)

Lemma path_exists_true fs p : is_Some (fs !! p) -> path_exists fs p = true.
Proof. intros H. unfold path_exists. apply bool_decide_eq_true, H. Qed.

Lemma path_exists_false fs p : fs !! p = None -> path_exists fs p = false.
Proof.
  intros H. unfold path_exists. apply bool_decide_eq_false.
  rewrite H. intros [? ?]. discriminate.
Qed.


(** C6 (amended): with the skip flag set, the fetcher is bypassed exactly
    when some file, of any length, is already stored at the tile's path;
    otherwise [download_tile] runs. *)
Theorem skip_existing_bypass env a x y dest w :
  skip_existing a = true ->
  (is_Some (files w !! dest) -> fetch_step env a x y dest w = (Ok tt, w)) /\
  (files w !! dest = None ->
   fetch_step env a x y dest w
   = download_tile env x y TILE_ZOOM dest (timeout a) (retries a) w).
Proof.
  intros Hskip. unfold fetch_step. rewrite Hskip. split.
  - intros H. rewrite (path_exists_true _ _ H). reflexivity.
  - intros H. rewrite (path_exists_false _ _ H). reflexivity.
Qed.

Lemma skip_existing_bypass_witness :
  skip_existing (example_args true) = true /\
  fetch_step (example_env server_up (fun _ => true)) (example_args true) 5 7
    "tmp/tile_5_7.png"
    {| files := {[ "tmp/tile_5_7.png" := [Byte.x89] ]}; requests := 0; trace := [] |}
  = (Ok tt,
     {| files := {[ "tmp/tile_5_7.png" := [Byte.x89] ]}; requests := 0;
        trace := [] |}).
Proof.
  split; [reflexivity|].
  apply (skip_existing_bypass (example_env server_up (fun _ => true))
           (example_args true) 5 7 "tmp/tile_5_7.png"); [reflexivity|].
  simpl. rewrite lookup_singleton_eq. eauto.
Defined.

(** C6 as stated fails: with the skip flag set, a zero-length marker is a
    cache hit. The step leaves the marker and sends no request, although
    the fetcher, had it run, would have stored the tile. *)
Lemma empty_marker_is_cache_hit :
  let env := example_env server_up (fun _ => true) in
  let dest := "tmp/tile_5_7.png" in
  let w := {| files := {[ dest := [] ]}; requests := 0; trace := [] |} in
  files w !! dest = Some []
  /\ fst (fetch_step env (example_args true) 5 7 dest w) = Ok tt
  /\ requests (snd (fetch_step env (example_args true) 5 7 dest w)) = 0%nat
  /\ files (snd (fetch_step env (example_args true) 5 7 dest w)) !! dest = Some []
  /\ files (snd (download_tile env 5 7 TILE_ZOOM dest 10 2 w)) !! dest
     = Some [Byte.x89; Byte.x50].
Proof. vm_compute. repeat split; reflexivity. Qed.









(** ** Progress milestones *)






















(** ** Stepping through a run *)


Lemma bind_lift_ok {A B : Type} (a : A) (k : A -> io B) w :
  bind (lift (Ok a)) k w = k a w.
Proof. reflexivity. Qed.

Lemma bind_emit {B : Type} (e : event) (k : unit -> io B) w :
  bind (emit e) k w
  = k tt {| files := files w; requests := requests w; trace := trace w ++ [e] |}.
Proof. reflexivity. Qed.

Lemma bind_get_files {B : Type} (k : gmap string (list Byte.byte) -> io B) w :
  bind get_files k w = k (files w) w.
Proof. reflexivity. Qed.



(** * Further properties of the code *)

(** ** Projection and grid *)











(** X2: the column of the tile depends on the longitude alone and the row
    on the latitude alone: two calls at the same zoom that both return
    agree on [x] when the longitudes are equal and on [y] when the
    latitudes are. *)
Theorem latlon_to_tile_separable
    (math_tan math_cos math_log : float -> result float)
    (lat1 lon1 lat2 lon2 : float) (z x1 y1 x2 y2 : Z) :
  latlon_to_tile math_tan math_cos math_log lat1 lon1 z = Ok (x1, y1) ->
  latlon_to_tile math_tan math_cos math_log lat2 lon2 z = Ok (x2, y2) ->
  (lon1 = lon2 -> x1 = x2) /\ (lat1 = lat2 -> y1 = y2).
Proof.
  intros E1 E2. unfold latlon_to_tile in E1, E2. cbv zeta in E1, E2.
  invert_rbind. injection E1 as <- <-. injection E2 as <- <-.
  split; intros ->.
  - congruence.
  - repeat match goal with
           | Ha : ?f = Ok ?a, Hb : ?f = Ok ?b |- _ =>
               assert (a = b) by congruence; subst b; clear Hb
           end.
    congruence.
Qed.

Lemma latlon_to_tile_separable_witness : 417 = 417.
Proof.
  apply (proj1 (latlon_to_tile_separable tan_equator cos_equator log_equator
                  0%float (-106.60)%float 10%float (-106.60)%float 11
                  417 1024 417 1024
                  ltac:(vm_compute; reflexivity) ltac:(vm_compute; reflexivity))).
  reflexivity.
Defined.


(** X3: at a zoom [z >= 0], [wrap_clamp_tile] leaves a coordinate that is
    already on the map as it is, and applying it twice is applying it
    once. *)
Theorem wrap_clamp_tile_idempotent (x y z : Z) :
  0 <= z ->
  (0 <= x < 2 ^ z -> 0 <= y < 2 ^ z -> wrap_clamp_tile x y z = (x, y)) /\
  wrap_clamp_tile (fst (wrap_clamp_tile x y z)) (snd (wrap_clamp_tile x y z)) z
  = wrap_clamp_tile x y z.
Proof.
  intros Hz. pose proof (pow2_pos z Hz) as Hn. unfold wrap_clamp_tile. cbv zeta.
  set (n := 2 ^ z) in *. clearbody n. split.
  - intros Hx Hy. rewrite Z.mod_small by lia. f_equal. lia.
  - cbn [fst snd]. rewrite Z.mod_mod by lia. f_equal. lia.
Qed.

Lemma wrap_clamp_tile_idempotent_witness :
  0 <= 11 /\
  wrap_clamp_tile 2047 0 11 = (2047, 0) /\
  wrap_clamp_tile (fst (wrap_clamp_tile (-1) 3000 11))
                  (snd (wrap_clamp_tile (-1) 3000 11)) 11
  = wrap_clamp_tile (-1) 3000 11.
Proof.
  split; [lia|].
  pose proof (wrap_clamp_tile_idempotent 2047 0 11 ltac:(lia)) as [H1 _].
  pose proof (wrap_clamp_tile_idempotent (-1) 3000 11 ltac:(lia)) as [_ H2].
  split; [apply H1; vm_compute; split; congruence | exact H2].
Defined.

Lemma offset_range_nonpos (n : Z) : n <= 0 -> offset_range n = [].
Proof.
  intros Hn. unfold offset_range, py_range. cbv zeta.
  pose proof (Z.div_mod n 2 ltac:(lia)) as Hd.
  pose proof (Z.mod_pos_bound n 2 ltac:(lia)) as Hm.
  destruct (n mod 2 =? 0) eqn:E; apply seqZ_nil.
  - apply Z.eqb_eq in E. lia.
  - apply Z.eqb_neq in E. lia.
Qed.

Lemma build_coords_meta_nonpos (cx cy n : Z) :
  n <= 0 -> build_coords_meta cx cy n = [].
Proof.
  intros Hn. unfold build_coords_meta. cbv zeta.
  rewrite (offset_range_nonpos n Hn). reflexivity.
Qed.

Lemma build_coords_meta_cell (cx cy n x y dx dy : Z) :
  (x, y, dx, dy) ∈ build_coords_meta cx cy n ->
  (x, y) = wrap_clamp_tile (cx + dx) (cy + dy) TILE_ZOOM.
Proof.
  intros Hin. unfold build_coords_meta in Hin. cbv zeta in Hin.
  apply list_elem_of_In, in_flat_map in Hin. destruct Hin as (dy' & _ & Hin).
  apply in_map_iff in Hin. destruct Hin as (dx' & Heq & _).
  destruct (wrap_clamp_tile (cx + dx') (cy + dy') TILE_ZOOM) as [wx wy] eqn:E.
  injection Heq as <- <- <- <-. rewrite E. reflexivity.
Qed.

(** X4: whatever the centre and the grid size, every cell of the grid
    addresses a tile of the map: its coordinate is the wrapped and clamped
    sum of centre and offset and lies in [[0, 2048)] on both axes; a grid
    size of zero or below gives no cell at all. *)
Theorem build_coords_meta_on_map (cx cy n : Z) :
  (forall x y dx dy,
     (x, y, dx, dy) ∈ build_coords_meta cx cy n ->
     (x, y) = wrap_clamp_tile (cx + dx) (cy + dy) TILE_ZOOM
     /\ 0 <= x < 2048 /\ 0 <= y < 2048) /\
  (n <= 0 -> build_coords_meta cx cy n = []).
Proof.
  split; [|apply build_coords_meta_nonpos].
  intros x y dx dy Hin. pose proof (build_coords_meta_cell _ _ _ _ _ _ _ Hin) as E.
  split; [exact E|].
  unfold wrap_clamp_tile, TILE_ZOOM in E. cbv zeta in E.
  change (2 ^ 11) with 2048 in E. injection E as -> ->.
  pose proof (Z.mod_pos_bound (cx + dx) 2048 ltac:(lia)). lia.
Qed.

Lemma build_coords_meta_on_map_witness :
  -3 <= 0 /\ build_coords_meta 512 384 (-3) = [].
Proof.
  split; [lia|].
  apply (proj2 (build_coords_meta_on_map 512 384 (-3))). lia.
Defined.

(** ** More on [download_tile] *)


Lemma backoff_trace_cons url first k :
  backoff_trace url first (S k)
  = Get url :: Sleep ((1 # 2) * inject_Z first) :: backoff_trace url (first + 1) k.
Proof.
  unfold backoff_trace. rewrite seqZ_cons by lia. cbn [flat_map app].
  replace (Z.pred (Z.of_nat (S k))) with (Z.of_nat k) by lia.
  replace (Z.succ first) with (first + 1) by lia. reflexivity.
Qed.




Lemma download_attempts_exhausted_trace env url dest timeout retries (k : nat) :
  forall first w,
    first + Z.of_nat k = retries ->
    (forall i, (requests w <= i < requests w + S k)%nat ->
               remote_failure (http_get env url timeout i) = true) ->
    download_attempts env url dest timeout retries (seqZ first (Z.of_nat (S k))) w
    = (Ok tt,
       {| files := if write_allowed env dest then <[dest := []]> (files w)
                   else files w;
          requests := (requests w + S k)%nat;
          trace := trace w ++ backoff_trace url first k ++ [Get url] |}).
Proof.
  induction k as [|k IH]; intros first w Hlast Hfail.
  - rewrite seqZ_cons by lia. rewrite seqZ_nil by lia. cbn [download_attempts].
    unfold bind at 1. rewrite session_get_failure by (apply Hfail; lia).
    replace (retries <=? first) with true by (symmetry; apply Z.leb_le; lia).
    unfold bind, try_except, write_bytes, ret.
    destruct (write_allowed env dest); cbn; rewrite Nat.add_1_r; reflexivity.
  - rewrite seqZ_cons by lia. cbn [download_attempts].
    unfold bind at 1. rewrite session_get_failure by (apply Hfail; lia).
    replace (retries <=? first) with false by (symmetry; apply Z.leb_gt; lia).
    unfold bind at 1. unfold emit at 1.
    replace (Z.pred (Z.of_nat (S (S k)))) with (Z.of_nat (S k)) by lia.
    replace (Z.succ first) with (first + 1) by lia.
    rewrite IH; cbn [requests files trace]; try lia.
    + rewrite backoff_trace_cons. f_equal. f_equal; [lia|].
      rewrite <- !app_assoc. reflexivity.
    + intros i Hi. apply Hfail. lia.
Qed.

(** X6: when each of the [retries >= 1] requests fails remotely,
    [download_tile] sends exactly [retries] requests, pauses half a second
    times the attempt number between consecutive attempts and not after
    the last, and leaves the marker if the store accepts it and the store
    as it was otherwise. *)
Theorem download_tile_exhausted_trace env x y z dest timeout retries w :
  1 <= retries ->
  (forall i, (requests w <= i < requests w + Z.to_nat retries)%nat ->
             remote_failure (http_get env (tile_url x y z) timeout i) = true) ->
  download_tile env x y z dest timeout retries w
  = (Ok tt,
     {| files := if write_allowed env dest then <[dest := []]> (files w)
                 else files w;
        requests := (requests w + Z.to_nat retries)%nat;
        trace := trace w ++ backoff_trace (tile_url x y z) 1 (Z.to_nat (retries - 1))
                         ++ [Get (tile_url x y z)] |}).
Proof.
  intros Hret Hfail. unfold download_tile, py_range.
  replace (retries + 1 - 1) with (Z.of_nat (S (Z.to_nat (retries - 1)))) by lia.
  rewrite (download_attempts_exhausted_trace env _ dest timeout retries
             (Z.to_nat (retries - 1)) 1 w); try lia.
  - do 2 f_equal. lia.
  - intros i Hi. apply Hfail. lia.
Qed.

Lemma download_tile_exhausted_trace_witness :
  1 <= 2 /\
  download_tile (example_env server_down (fun _ => false)) 5 7 TILE_ZOOM
    "tmp/tile_5_7.png" 10 2 empty_world
  = (Ok tt,
     {| files := ∅; requests := 2;
        trace := [Get (tile_url 5 7 TILE_ZOOM); Sleep ((1 # 2) * inject_Z 1);
                  Get (tile_url 5 7 TILE_ZOOM)] |}).
Proof.
  split; [lia|].
  apply (download_tile_exhausted_trace (example_env server_down (fun _ => false))
           5 7 TILE_ZOOM "tmp/tile_5_7.png" 10 2 empty_world); [lia|].
  intros i Hi. simpl in Hi. destruct i as [|[|i]]; [reflexivity|reflexivity|lia].
Defined.

Lemma attempt_body_requests env url dest timeout w r w1 :
  (content <- session_get env url timeout ;; write_bytes env dest content)%io w
  = (r, w1) ->
  requests w1 = S (requests w).
Proof.
  unfold bind, session_get, write_bytes. intros H.
  destruct (http_get env url timeout (requests w)) as [status content|].
  - destruct ((400 <=? status) && (status <? 600)).
    + injection H as _ <-. reflexivity.
    + destruct (write_allowed env dest); injection H as _ <-; reflexivity.
  - injection H as _ <-. reflexivity.
Qed.

Lemma write_bytes_requests env p data w r w1 :
  write_bytes env p data w = (r, w1) -> requests w1 = requests w.
Proof.
  unfold write_bytes. intros H.
  destruct (write_allowed env p); injection H as _ <-; reflexivity.
Qed.

Lemma download_attempts_requests env url dest timeout retries attempts w r w' :
  download_attempts env url dest timeout retries attempts w = (r, w') ->
  (requests w <= requests w' <= requests w + length attempts)%nat.
Proof.
  revert w. induction attempts as [|attempt rest IH]; intros w H;
    cbn [download_attempts] in H.
  - injection H as _ <-. simpl. lia.
  - destruct ((content <- session_get env url timeout ;;
               write_bytes env dest content)%io w) as [[u|e] w1] eqn:E;
      apply attempt_body_requests in E.
    + injection H as _ <-. simpl. lia.
    + destruct (retries <=? attempt).
      * unfold bind at 1 in H. unfold try_except in H.
        destruct (write_bytes env dest [] w1) as [[u|e'] w2] eqn:Ew;
          apply write_bytes_requests in Ew.
        -- apply IH in H. simpl. lia.
        -- unfold ret in H. apply IH in H. simpl. lia.
      * unfold bind at 1 in H. unfold emit in H. apply IH in H.
        simpl in *. lia.
Qed.

(** X7: whatever happens, [download_tile] writes no file but its own
    [dest], and sends at most [retries] requests; with [retries <= 0] it
    does nothing at all. *)
Theorem download_tile_footprint env x y z dest timeout retries w :
  (forall p, p <> dest ->
     files (snd (download_tile env x y z dest timeout retries w)) !! p
     = files w !! p) /\
  (requests w
   <= requests (snd (download_tile env x y z dest timeout retries w))
   <= requests w + Z.to_nat retries)%nat /\
  (retries <= 0 -> download_tile env x y z dest timeout retries w = (Ok tt, w)).
Proof.
  split; [|split].
  - intros p Hp.
    destruct (download_tile env x y z dest timeout retries w) as [r w'] eqn:E.
    exact (others_kept_download_tile env x y z dest timeout retries w r w' E p Hp).
  - unfold download_tile, py_range.
    destruct (download_attempts env (tile_url x y z) dest timeout retries
                (seqZ 1 (retries + 1 - 1)) w) as [r w'] eqn:E.
    apply download_attempts_requests in E. rewrite length_seqZ in E.
    cbn [snd]. lia.
  - intros Hret. unfold download_tile, py_range. rewrite seqZ_nil by lia.
    reflexivity.
Qed.

Lemma download_tile_footprint_witness :
  0 <= 0 /\
  download_tile (example_env server_up (fun _ => true)) 5 7 TILE_ZOOM
    "tmp/tile_5_7.png" 10 0 empty_world = (Ok tt, empty_world).
Proof.
  split; [lia|].
  apply (proj2 (proj2 (download_tile_footprint
                         (example_env server_up (fun _ => true)) 5 7 TILE_ZOOM
                         "tmp/tile_5_7.png" 10 0 empty_world))). lia.
Defined.

(** ** More on the stitcher *)

Section StitchBlocks.

Variable env : environment.
Variable fs : gmap string (list Byte.byte).
Variable tiles_dir : string.
Variables tw th half : Z.
Variable bg_rgba : option (Z * Z * Z * Z).

(** The part of a pasted tile that no later cell starts on shows in the
    result. *)
Lemma paste_cells_block cells canvas canvas' (k : nat) x y dx dy tile i j :
  paste_cells env fs tiles_dir tw th half bg_rgba cells canvas = Ok canvas' ->
  cells !! k = Some (x, y, dx, dy) ->
  cell_tile env fs tiles_dir tw th bg_rgba x y = Ok tile ->
  Forall (fun cell : Z * Z * Z * Z =>
            let '(_, _, dx', dy') := cell in
            (dx + half) * tw + i < (dx' + half) * tw
            \/ (dy + half) * th + j < (dy' + half) * th) (drop (S k) cells) ->
  0 <= i < fst (size tile) -> 0 <= j < snd (size tile) ->
  getpixel canvas' ((dx + half) * tw + i) ((dy + half) * th + j)
  = getpixel tile i j.
Proof.
  revert canvas k. induction cells as [|[[[x0 y0] dx0] dy0] rest IH];
    intros canvas k Hrun Hk Htile Hlater Hi Hj.
  - rewrite lookup_nil in Hk. discriminate.
  - cbn [paste_cells] in Hrun. destruct k as [|k]; simpl in Hk, Hlater.
    + injection Hk as -> -> -> ->. rewrite Htile in Hrun. cbn [rbind] in Hrun.
      rewrite (paste_cells_keeps _ _ _ _ _ _ _ _ _ _ _ _ Hrun Hlater).
      apply getpixel_paste_inside; assumption.
    + apply rbind_ok in Hrun. destruct Hrun as (tile0 & _ & Hrun).
      eapply IH; eassumption.
Qed.

End StitchBlocks.

(** In the grid of [main], the cells after position [k] start to the right
    of, or below, the block of the cell at position [k]. *)
Lemma grid_later_cells_clear cx cy n tw th (k : nat) x y dx dy i j :
  1 <= n -> 0 <= tw -> 0 <= th ->
  build_coords_meta cx cy n !! k = Some (x, y, dx, dy) ->
  i < tw -> j < th ->
  Forall (fun cell : Z * Z * Z * Z =>
            let '(_, _, dx', dy') := cell in
            (dx + n / 2) * tw + i < (dx' + n / 2) * tw
            \/ (dy + n / 2) * th + j < (dy' + n / 2) * th)
         (drop (S k) (build_coords_meta cx cy n)).
Proof.
  intros Hn Htw Hth Hk Hi Hj.
  pose proof (lookup_lt_Some _ _ _ Hk) as Hklt.
  rewrite (build_coords_meta_length cx cy n Hn) in Hklt.
  assert (Hcell := build_coords_meta_lookup cx cy n (Z.of_nat k) Hn ltac:(lia)).
  rewrite Nat2Z.id, Hk in Hcell. injection Hcell as _ _ Hdx Hdy.
  apply Forall_lookup. intros m [[[x' y'] dx'] dy'] Hm.
  rewrite lookup_drop in Hm. change (S k + m)%nat with (S (k + m)) in Hm.
  pose proof (lookup_lt_Some _ _ _ Hm) as Hmlt.
  rewrite (build_coords_meta_length cx cy n Hn) in Hmlt.
  assert (Hcell := build_coords_meta_lookup cx cy n (Z.of_nat (S (k + m))) Hn
                     ltac:(lia)).
  rewrite Nat2Z.id, Hm in Hcell. injection Hcell as _ _ Hdx' Hdy'.
  set (h := n / 2) in *. clearbody h.
  set (a := Z.of_nat k) in *. set (b := Z.of_nat (S (k + m))) in *.
  assert (Hab : a < b) by (subst a b; lia).
  assert (Ha : 0 <= a) by (subst a; lia).
  pose proof (Z.div_mod a n ltac:(lia)) as Hda.
  pose proof (Z.div_mod b n ltac:(lia)) as Hdb.
  pose proof (Z.mod_pos_bound a n ltac:(lia)) as Hra.
  pose proof (Z.mod_pos_bound b n ltac:(lia)) as Hrb.
  replace (dx + h) with (a mod n) by lia.
  replace (dy + h) with (a / n) by lia.
  replace (dx' + h) with (b mod n) by lia.
  replace (dy' + h) with (b / n) by lia.
  destruct (Z.lt_ge_cases (a / n) (b / n)) as [Hrow|Hrow].
  - right. nia.
  - left. assert (a / n = b / n) by nia. nia.
Qed.

(** The canvas of the grid of [main], block by block. *)
Lemma stitch_grid env fs tiles_dir cx cy n bg_rgba :
  1 <= n ->
  (forall data im, png_decode env data = Ok im ->
                   0 <= fst (size im) /\ 0 <= snd (size im)) ->
  exists inferred canvas tw th,
    infer_tile_size env fs tiles_dir (build_coords_meta cx cy n) = Ok inferred
    /\ (tw, th) = match inferred with
                  | Some sz => sz
                  | None => DEFAULT_FALLBACK_TILE
                  end
    /\ 0 <= tw /\ 0 <= th
    /\ stitch_from_folder env fs tiles_dir (build_coords_meta cx cy n) n bg_rgba
       = Ok canvas
    /\ size canvas = (tw * n, th * n)
    /\ forall (k : nat) x y dx dy tile i j,
         build_coords_meta cx cy n !! k = Some (x, y, dx, dy) ->
         cell_tile env fs tiles_dir tw th bg_rgba x y = Ok tile ->
         0 <= i < Z.min tw (fst (size tile)) ->
         0 <= j < Z.min th (snd (size tile)) ->
         getpixel canvas ((dx + n / 2) * tw + i) ((dy + n / 2) * th + j)
         = getpixel tile i j.
Proof.
  intros Hn Hdec. set (cells := build_coords_meta cx cy n).
  destruct (infer_tile_size_returns env fs tiles_dir cells Hdec)
    as (inferred & Hinf & Hpos).
  set (sz := match inferred with Some sz => sz | None => DEFAULT_FALLBACK_TILE end).
  assert (Hsz : 0 <= fst sz /\ 0 <= snd sz).
  { subst sz. destruct inferred as [sz|]; [apply Hpos; reflexivity|].
    simpl. lia. }
  destruct sz as [tw th] eqn:Esz. simpl in Hsz. destruct Hsz as [Htw Hth].
  destruct (paste_cells_returns env fs tiles_dir tw th (n / 2) bg_rgba Htw Hth cells
              {| size := (tw * n, th * n); getpixel := fun _ _ => (0, 0, 0, 0) |})
    as (canvas & Hrun & Hsize).
  exists inferred, canvas, tw, th.
  split; [exact Hinf|]. split; [subst sz; congruence|].
  split; [exact Htw|]. split; [exact Hth|]. split.
  { unfold stitch_from_folder. rewrite Hinf. cbn [rbind]. fold sz. rewrite Esz.
    rewrite Image_new_ok by nia. cbn [rbind]. exact Hrun. }
  split; [exact Hsize|].
  intros k x y dx dy tile i j Hk Htile Hi Hj.
  eapply (paste_cells_block env fs tiles_dir tw th (n / 2) bg_rgba);
    try eassumption; try lia.
  apply (grid_later_cells_clear cx cy n tw th k x y dx dy i j); try assumption; lia.
Qed.

Lemma cell_tile_present env fs tiles_dir tw th bg_rgba x y tile :
  safe_open_png env fs (tile_path tiles_dir x y) = Ok (Some tile) ->
  cell_tile env fs tiles_dir tw th bg_rgba x y = Ok tile.
Proof. intros H. unfold cell_tile. rewrite H. reflexivity. Qed.

(** X8: in the canvas that [stitch_from_folder] returns for the grid of
    [main], a tile that opens shows at its cell: within the block of the
    inferred tile size at origin [((dx + h) * tw, (dy + h) * th)], the
    canvas holds the tile's own pixels. The canvas measures the inferred
    tile size times the grid size. *)
Theorem present_tile_placement env fs tiles_dir cx cy n bg_rgba :
  1 <= n ->
  (forall data im, png_decode env data = Ok im ->
                   0 <= fst (size im) /\ 0 <= snd (size im)) ->
  exists inferred canvas tw th,
    infer_tile_size env fs tiles_dir (build_coords_meta cx cy n) = Ok inferred
    /\ (tw, th) = match inferred with
                  | Some sz => sz
                  | None => DEFAULT_FALLBACK_TILE
                  end
    /\ stitch_from_folder env fs tiles_dir (build_coords_meta cx cy n) n bg_rgba
       = Ok canvas
    /\ size canvas = (tw * n, th * n)
    /\ forall x y dx dy tile,
         (x, y, dx, dy) ∈ build_coords_meta cx cy n ->
         safe_open_png env fs (tile_path tiles_dir x y) = Ok (Some tile) ->
         forall i j,
           0 <= i < Z.min tw (fst (size tile)) ->
           0 <= j < Z.min th (snd (size tile)) ->
           getpixel canvas ((dx + n / 2) * tw + i) ((dy + n / 2) * th + j)
           = getpixel tile i j.
Proof.
  intros Hn Hdec.
  destruct (stitch_grid env fs tiles_dir cx cy n bg_rgba Hn Hdec)
    as (inferred & canvas & tw & th & Hinf & Hsz & _ & _ & Hrun & Hsize & Hpix).
  exists inferred, canvas, tw, th.
  split; [exact Hinf|]. split; [exact Hsz|]. split; [exact Hrun|].
  split; [exact Hsize|].
  intros x y dx dy tile Hin Hopen i j Hi Hj.
  apply list_elem_of_lookup in Hin. destruct Hin as (k & Hk).
  apply (Hpix k x y dx dy tile i j Hk); try assumption.
  apply cell_tile_present, Hopen.
Qed.

Lemma present_tile_placement_witness :
  1 <= 1 /\
  exists canvas,
    stitch_from_folder (decoding_env server_up (fun _ => true))
      {[ tile_path "tmp" 512 384 := [Byte.x89] ]} "tmp"
      (build_coords_meta 512 384 1) 1 None = Ok canvas
    /\ size canvas = (2, 2)
    /\ getpixel canvas 1 1 = (1, 1, 0, 255).
Proof.
  split; [lia|].
  destruct (present_tile_placement (decoding_env server_up (fun _ => true))
              {[ tile_path "tmp" 512 384 := [Byte.x89] ]} "tmp" 512 384 1 None)
    as (inferred & canvas & tw & th & Hinf & Hsz & Hrun & Hsize & Hpix).
  - lia.
  - intros data im H. injection H as <-. simpl. lia.
  - vm_compute in Hinf. injection Hinf as <-. injection Hsz as -> ->.
    exists canvas. split; [exact Hrun|]. split; [exact Hsize|].
    assert (Hin : (512, 384, 0, 0) ∈ build_coords_meta 512 384 1).
    { apply (list_elem_of_lookup_2 _ 0%nat). vm_compute. reflexivity. }
    assert (Hopen : safe_open_png (decoding_env server_up (fun _ => true))
                      {[ tile_path "tmp" 512 384 := [Byte.x89] ]}
                      (tile_path "tmp" 512 384) = Ok (Some example_tile)).
    { vm_compute. reflexivity. }
    apply (Hpix 512 384 0 0 example_tile Hin Hopen 1 1); simpl; lia.
Defined.

Lemma infer_tile_size_none env fs tiles_dir cells :
  (forall x y dx dy, (x, y, dx, dy) ∈ cells ->
     safe_open_png env fs (tile_path tiles_dir x y) = Ok None) ->
  infer_tile_size env fs tiles_dir cells = Ok None.
Proof.
  induction cells as [|[[[x y] dx] dy] rest IH]; intros Habs;
    cbn [infer_tile_size]; [reflexivity|].
  rewrite (Habs x y dx dy) by (apply list_elem_of_here). cbn [rbind].
  apply IH. intros x' y' dx' dy' Hin. apply (Habs x' y' dx' dy').
  apply list_elem_of_further, Hin.
Qed.

(** X9: the tile size is that of the first cell, in grid order, whose tile
    opens; when no tile opens there is none to infer. *)
Theorem infer_tile_size_first env fs tiles_dir before after x y dx dy im :
  (forall x' y' dx' dy', (x', y', dx', dy') ∈ before ->
     safe_open_png env fs (tile_path tiles_dir x' y') = Ok None) ->
  (safe_open_png env fs (tile_path tiles_dir x y) = Ok (Some im) ->
   infer_tile_size env fs tiles_dir (before ++ (x, y, dx, dy) :: after)
   = Ok (Some (size im))) /\
  (infer_tile_size env fs tiles_dir before = Ok None).
Proof.
  intros Habs. split; [|apply infer_tile_size_none, Habs].
  intros Hopen. induction before as [|[[[x0 y0] dx0] dy0] rest IH];
    cbn [app infer_tile_size].
  - rewrite Hopen. reflexivity.
  - rewrite (Habs x0 y0 dx0 dy0) by (apply list_elem_of_here). cbn [rbind].
    apply IH. intros x' y' dx' dy' Hin. apply (Habs x' y' dx' dy').
    apply list_elem_of_further, Hin.
Qed.

Lemma infer_tile_size_first_witness :
  infer_tile_size (decoding_env server_up (fun _ => true))
    {[ tile_path "tmp" 1 0 := [Byte.x89]; tile_path "tmp" 0 0 := [] ]} "tmp"
    ([(0, 0, -1, 0)] ++ (1, 0, 0, 0) :: [(2, 0, 1, 0)])
  = Ok (Some (2, 2)).
Proof.
  refine (proj1 (infer_tile_size_first (decoding_env server_up (fun _ => true))
                   {[ tile_path "tmp" 1 0 := [Byte.x89]; tile_path "tmp" 0 0 := [] ]}
                   "tmp" [(0, 0, -1, 0)] [(2, 0, 1, 0)] 1 0 0 0 example_tile _) _).
  - intros x' y' dx' dy' Hin. apply list_elem_of_singleton in Hin.
    injection Hin as -> -> -> ->. vm_compute. reflexivity.
  - vm_compute. reflexivity.
Defined.

(** X10: when no tile of the grid opens, [stitch_from_folder] returns a
    canvas of 1000 by 1000 pixels per cell, every pixel of which holds the
    background colour, each channel saturated to [0..255], or transparent
    black when none is configured. *)
Theorem all_tiles_missing_canvas env fs tiles_dir cx cy n bg_rgba :
  1 <= n ->
  (forall x y dx dy, (x, y, dx, dy) ∈ build_coords_meta cx cy n ->
     safe_open_png env fs (tile_path tiles_dir x y) = Ok None) ->
  exists canvas,
    stitch_from_folder env fs tiles_dir (build_coords_meta cx cy n) n bg_rgba
    = Ok canvas
    /\ size canvas = (1000 * n, 1000 * n)
    /\ forall i j, 0 <= i < 1000 * n -> 0 <= j < 1000 * n ->
         getpixel canvas i j
         = clip_rgba match bg_rgba with Some c => c | None => (0, 0, 0, 0) end.
Proof.
  intros Hn Habs. set (cells := build_coords_meta cx cy n) in *.
  destruct (paste_cells_returns env fs tiles_dir 1000 1000 (n / 2) bg_rgba
              ltac:(lia) ltac:(lia) cells
              {| size := (1000 * n, 1000 * n);
                 getpixel := fun _ _ => (0, 0, 0, 0) |})
    as (canvas & Hrun & Hsize).
  exists canvas. split; [|split; [exact Hsize|]].
  { unfold stitch_from_folder. fold cells.
    rewrite (infer_tile_size_none env fs tiles_dir cells Habs). cbn [rbind].
    unfold DEFAULT_FALLBACK_TILE. rewrite Image_new_ok by lia. cbn [rbind].
    exact Hrun. }
  intros i j Hi Hj.
  set (col := i / 1000). set (row := j / 1000).
  pose proof (Z.div_mod i 1000 ltac:(lia)) as Hdi.
  pose proof (Z.div_mod j 1000 ltac:(lia)) as Hdj.
  pose proof (Z.mod_pos_bound i 1000 ltac:(lia)) as Hri.
  pose proof (Z.mod_pos_bound j 1000 ltac:(lia)) as Hrj.
  assert (Hcol : 0 <= col < n).
  { subst col. split; [apply Z.div_pos; lia | apply Z.div_lt_upper_bound; lia]. }
  assert (Hrow : 0 <= row < n).
  { subst row. split; [apply Z.div_pos; lia | apply Z.div_lt_upper_bound; lia]. }
  set (k := row * n + col).
  assert (Hk : 0 <= k < n * n) by (subst k; nia).
  pose proof (build_coords_meta_lookup cx cy n k Hn Hk) as Hcell.
  assert (Hkm : k mod n = col).
  { subst k. rewrite Z.add_comm, Z.mod_add by lia. apply Z.mod_small. lia. }
  assert (Hkd : k / n = row).
  { subst k. rewrite Z.add_comm, Z.div_add by lia.
    rewrite Z.div_small by lia. lia. }
  rewrite Hkm, Hkd in Hcell. fold cells in Hcell.
  set (x := fst (wrap_clamp_tile (cx + (col - n / 2)) (cy + (row - n / 2)) TILE_ZOOM)) in *.
  set (y := snd (wrap_clamp_tile (cx + (col - n / 2)) (cy + (row - n / 2)) TILE_ZOOM)) in *.
  assert (Hx : safe_open_png env fs (tile_path tiles_dir x y) = Ok None).
  { apply (Habs x y (col - n / 2) (row - n / 2)).
    apply (list_elem_of_lookup_2 _ (Z.to_nat k)). exact Hcell. }
  pose proof (paste_cells_block env fs tiles_dir 1000 1000 (n / 2) bg_rgba cells _
                canvas (Z.to_nat k) x y (col - n / 2) (row - n / 2) _
                (i mod 1000) (j mod 1000) Hrun Hcell
                (cell_tile_absent env fs tiles_dir 1000 1000 bg_rgba
                   ltac:(lia) ltac:(lia) x y Hx)) as Hpix.
  cbn [size getpixel fst snd] in Hpix.
  replace ((col - n / 2 + n / 2) * 1000 + i mod 1000) with i in Hpix
    by (subst col; lia).
  replace ((row - n / 2 + n / 2) * 1000 + j mod 1000) with j in Hpix
    by (subst row; lia).
  apply Hpix; try lia.
  pose proof (grid_later_cells_clear cx cy n 1000 1000 (Z.to_nat k) x y
                (col - n / 2) (row - n / 2) (i mod 1000) (j mod 1000)
                Hn ltac:(lia) ltac:(lia) Hcell ltac:(lia) ltac:(lia)) as Hclear.
  replace ((col - n / 2 + n / 2) * 1000 + i mod 1000) with i in Hclear
    by (subst col; lia).
  replace ((row - n / 2 + n / 2) * 1000 + j mod 1000) with j in Hclear
    by (subst row; lia).
  exact Hclear.
Qed.

Lemma all_tiles_missing_canvas_witness :
  1 <= 2 /\
  exists canvas,
    stitch_from_folder (example_env server_down (fun _ => true)) ∅ "tmp"
      (build_coords_meta 512 384 2) 2 (Some (-15, -15, 245, 255)) = Ok canvas
    /\ size canvas = (1000 * 2, 1000 * 2)
    /\ getpixel canvas 1999 0 = (0, 0, 245, 255).
Proof.
  split; [lia|].
  destruct (all_tiles_missing_canvas (example_env server_down (fun _ => true)) ∅
              "tmp" 512 384 2 (Some (-15, -15, 245, 255)))
    as (canvas & Hrun & Hsize & Hpix).
  - lia.
  - intros x y dx dy _. unfold safe_open_png, path_exists.
    rewrite lookup_empty. reflexivity.
  - exists canvas. split; [exact Hrun|]. split; [exact Hsize|].
    rewrite Hpix by lia. reflexivity.
Defined.

(** X11: [safe_open_png] hands back an image exactly when the file exists,
    is not empty and decodes, and the image is then the decoding of the
    stored bytes. *)
Theorem safe_open_png_present env fs p im :
  safe_open_png env fs p = Ok (Some im)
  <-> exists data, fs !! p = Some data /\ data <> [] /\ png_decode env data = Ok im.
Proof.
  unfold safe_open_png, try_result, path_exists, st_size, image_open.
  destruct (fs !! p) as [data|] eqn:E.
  - rewrite bool_decide_true by eauto. cbn [negb orb].
    destruct data as [|b data]; cbn [length Z.of_nat Z.eqb].
    + split; [discriminate|]. intros (d & Hd & Hne & _). congruence.
    + change (Z.of_nat (S (length data)) =? 0) with false. cbn iota.
      destruct (png_decode env (b :: data)) as [im'|e] eqn:D; cbn [rbind].
      * split.
        -- intros H. injection H as <-. exists (b :: data).
           split; [reflexivity|]. split; [discriminate | exact D].
        -- intros (d & Hd & _ & Hdec). injection Hd as <-. congruence.
      * split; [discriminate|].
        intros (d & Hd & _ & Hdec). injection Hd as <-. congruence.
  - rewrite bool_decide_false by (intros [? ?]; discriminate). cbn.
    split; [discriminate|]. intros (d & Hd & _). discriminate.
Qed.

(** ** More on the download loop *)









Lemma state_kept_print_progress total index ms printed :
  respects state_kept (print_progress total index ms printed).
Proof.
  apply (respects_print_progress state_kept) with (allowed := fun _ => True).
  - intros w. split; reflexivity.
  - intros w1 w2 w3 [H1 H2] [H3 H4]. unfold state_kept. split; congruence.
  - intros w e _. split; reflexivity.
  - intros. exact I.
Qed.

Lemma fetch_step_footprint env a x y dest w r w' :
  fetch_step env a x y dest w = (r, w') ->
  (forall p, p <> dest -> files w' !! p = files w !! p)
  /\ (requests w <= requests w' <= requests w + Z.to_nat (retries a))%nat.
Proof.
  unfold fetch_step. intros H.
  destruct (skip_existing a && path_exists (files w) dest).
  { injection H as _ <-. split; [reflexivity | lia]. }
  destruct (negb (path_exists (files w) dest) || (st_size (files w) dest =? 0)).
  - split.
    + intros p Hp. exact (others_kept_download_tile _ _ _ _ _ _ _ _ _ _ H p Hp).
    + unfold download_tile, py_range in H.
      apply download_attempts_requests in H. rewrite length_seqZ in H. lia.
  - injection H as _ <-. split; [reflexivity | lia].
Qed.

Lemma download_loop_footprint_run env a tiles_dir total coords_meta :
  forall index printed w r w',
    download_loop env a tiles_dir total index coords_meta printed w = (r, w') ->
    (forall p,
       (forall x y dx dy, (x, y, dx, dy) ∈ coords_meta ->
                          p <> tile_path tiles_dir x y) ->
       files w' !! p = files w !! p)
    /\ (requests w <= requests w'
        <= requests w + length coords_meta * Z.to_nat (retries a))%nat.
Proof.
  induction coords_meta as [|[[[x y] dx] dy] rest IH];
    intros index printed w r w' H; cbn [download_loop] in H.
  - injection H as _ <-. split; [reflexivity | simpl; lia].
  - unfold bind at 1 in H.
    destruct (fetch_step env a x y (tile_path tiles_dir x y) w) as [[u|e] w1] eqn:E1;
      apply fetch_step_footprint in E1; destruct E1 as [Hf1 Hr1].
    2:{ injection H as _ <-. split.
        - intros p Hp. apply Hf1. apply (Hp x y dx dy), list_elem_of_here.
        - simpl. lia. }
    unfold bind at 1 in H.
    set (pace := if (index <? total) && negb (Qle_bool (delay a) 0)
                 then emit (Sleep (delay a)) else ret tt) in H.
    assert (Hpace : exists w2, pace w1 = (Ok tt, w2) /\ state_kept w1 w2).
    { subst pace. destruct ((index <? total) && negb (Qle_bool (delay a) 0));
        eexists; (split; [reflexivity | split; reflexivity]). }
    destruct Hpace as (w2 & Hpace & Hf2 & Hr2). rewrite Hpace in H.
    unfold bind at 1 in H.
    destruct (print_progress total index milestones printed w2)
      as [[printed1|e] w3] eqn:E3;
      destruct (state_kept_print_progress _ _ _ _ _ _ _ E3) as [Hf3 Hr3].
    2:{ injection H as _ <-. split.
        - intros p Hp. rewrite Hf3, Hf2. apply Hf1.
          apply (Hp x y dx dy), list_elem_of_here.
        - simpl. lia. }
    apply IH in H. destruct H as [Hf Hr]. split.
    + intros p Hp. rewrite Hf.
      * rewrite Hf3, Hf2. apply Hf1. apply (Hp x y dx dy), list_elem_of_here.
      * intros x' y' dx' dy' Hin. apply (Hp x' y' dx' dy').
        apply list_elem_of_further, Hin.
    + simpl. lia.
Qed.

(** X13: the download loop writes no file but the tile files of the cells
    it is given, and sends at most [retries] requests per cell. *)
Theorem download_loop_footprint env a tiles_dir total index coords_meta printed w :
  (forall p,
     (forall x y dx dy, (x, y, dx, dy) ∈ coords_meta ->
                        p <> tile_path tiles_dir x y) ->
     files (snd (download_loop env a tiles_dir total index coords_meta printed w))
       !! p = files w !! p)
  /\ (requests w
      <= requests
           (snd (download_loop env a tiles_dir total index coords_meta printed w))
      <= requests w + length coords_meta * Z.to_nat (retries a))%nat.
Proof.
  destruct (download_loop env a tiles_dir total index coords_meta printed w)
    as [r w'] eqn:E.
  exact (download_loop_footprint_run env a tiles_dir total coords_meta
           index printed w r w' E).
Qed.

Lemma download_loop_footprint_witness :
  files (snd (download_loop (example_env server_up (fun _ => true))
                (example_args false) "tmp" 1 1 (build_coords_meta 512 384 1) []
                empty_world)) !! "out.png"
  = files empty_world !! "out.png".
Proof.
  apply (proj1 (download_loop_footprint (example_env server_up (fun _ => true))
                  (example_args false) "tmp" 1 1 (build_coords_meta 512 384 1) []
                  empty_world)).
  intros x y dx dy Hin. apply list_elem_of_singleton in Hin.
  injection Hin as -> -> -> ->. intros H. vm_compute in H. discriminate H.
Defined.

(** ** More on [main] *)

Lemma bind_ret {A B : Type} (a : A) (k : A -> io B) w : bind (ret a) k w = k a w.
Proof. reflexivity. Qed.

Lemma bind_lift_raise {A B : Type} (e : exn) (k : A -> io B) w :
  bind (lift (Raise e)) k w = (Raise e, w).
Proof. reflexivity. Qed.

Lemma banner_step {B : Type} (a : args) cx cy (k : unit -> io B) w :
  bind (emit (PrintCenter cx cy))
       (fun _ => bind (if grid_size a mod 2 =? 0 then emit WarnEvenGrid else ret tt) k)
       w
  = k tt (after_banner a cx cy w).
Proof.
  rewrite bind_emit. unfold after_banner.
  destruct (grid_size a mod 2 =? 0).
  - rewrite bind_emit. cbn [files requests trace]. rewrite <- app_assoc. reflexivity.
  - rewrite bind_ret. reflexivity.
Qed.

(** The run up to the end of the download loop. *)
Ltac enter_main Hurl Hproj :=
  unfold script, main;
  rewrite Hurl, bind_lift_ok; cbv beta iota;
  rewrite Hproj, bind_lift_ok; cbv beta iota;
  rewrite banner_step.


(** X14: a share link that does not parse, a projection that raises and a
    tile directory that cannot be created each end the run with status 1
    before any request is sent and with the store as it was. *)
Theorem early_failures env a w :
  (forall e, url_latlng a = Raise e -> script env a w = (1, stopped e w)) /\
  (forall lat lng e,
     url_latlng a = Ok (lat, lng) ->
     latlon_to_tile (libm_tan env) (libm_cos env) (libm_log env) lat lng TILE_ZOOM
       = Raise e ->
     script env a w = (1, stopped e w)) /\
  (forall lat lng cx cy,
     url_latlng a = Ok (lat, lng) ->
     latlon_to_tile (libm_tan env) (libm_cos env) (libm_log env) lat lng TILE_ZOOM
       = Ok (cx, cy) ->
     mkdir_allowed env (tiles_dir_of env a) = false ->
     script env a w = (1, stopped OSError (after_banner a cx cy w))).
Proof.
  split; [|split].
  - intros e Hurl. unfold script, main. rewrite Hurl, bind_lift_raise. reflexivity.
  - intros lat lng e Hurl Hproj. unfold script, main.
    rewrite Hurl, bind_lift_ok. cbv beta iota.
    rewrite Hproj, bind_lift_raise. reflexivity.
  - intros lat lng cx cy Hurl Hproj Hmkdir. enter_main Hurl Hproj.
    unfold mkdir at 1. unfold bind at 1. fold (tiles_dir_of env a).
    rewrite Hmkdir. reflexivity.
Qed.

Lemma early_failures_witness :
  script (example_env server_up (fun _ => true))
    {| url_latlng := Raise ValueError; out := "out.png"; grid_size := 3;
       timeout := 10; delay := 1 # 2; retries := 2; background_hex := None;
       temp_dir := None; keep_tiles := false; skip_existing := false |}
    empty_world
  = (1, stopped ValueError empty_world).
Proof.
  apply (proj1 (early_failures (example_env server_up (fun _ => true))
                  {| url_latlng := Raise ValueError; out := "out.png";
                     grid_size := 3; timeout := 10; delay := 1 # 2; retries := 2;
                     background_hex := None; temp_dir := None;
                     keep_tiles := false; skip_existing := false |}
                  empty_world)).
  reflexivity.
Defined.



(** X16: with a negative grid size the grid is empty, no request is sent
    and no file written, and the run ends with status 1 when the canvas of
    negative size is asked for. *)
Theorem negative_grid_size env a w lat lng cx cy :
  url_latlng a = Ok (lat, lng) ->
  latlon_to_tile (libm_tan env) (libm_cos env) (libm_log env) lat lng TILE_ZOOM
    = Ok (cx, cy) ->
  mkdir_allowed env (tiles_dir_of env a) = true ->
  (forall e, background_hex a <> Some (Raise e)) ->
  grid_size a < 0 ->
  script env a w = (1, stopped ValueError (after_banner a cx cy w)).
Proof.
  intros Hurl Hproj Hmkdir Hbg Hn. enter_main Hurl Hproj.
  unfold mkdir at 1. unfold bind at 1. fold (tiles_dir_of env a). rewrite Hmkdir.
  rewrite (build_coords_meta_nonpos cx cy (grid_size a)) by lia.
  cbn [download_loop length]. rewrite bind_ret.
  assert (Hparsed : exists bg_rgba,
             match background_hex a with
             | Some parsed => (let? c := parsed in Ok (Some c))%res
             | None => Ok None
             end = Ok bg_rgba).
  { destruct (background_hex a) as [[c|e]|] eqn:E; simpl; eauto.
    exfalso. exact (Hbg e eq_refl). }
  destruct Hparsed as (bg_rgba & ->).
  rewrite bind_lift_ok, bind_get_files.
  unfold stitch_from_folder. cbn [infer_tile_size rbind].
  unfold DEFAULT_FALLBACK_TILE, Image_new.
  replace (1000 * grid_size a <? 0) with true by (symmetry; apply Z.ltb_lt; lia).
  cbn [orb rbind]. rewrite bind_lift_raise. reflexivity.
Qed.

Lemma negative_grid_size_witness :
  script (example_env server_up (fun _ => true))
    {| url_latlng := Ok (0%float, 0%float); out := "out.png"; grid_size := -2;
       timeout := 10; delay := 1 # 2; retries := 2; background_hex := None;
       temp_dir := Some "tmp"; keep_tiles := false; skip_existing := false |}
    empty_world
  = (1, {| files := ∅; requests := 0;
           trace := [PrintCenter 1024 1024; WarnEvenGrid; PrintError ValueError] |}).
Proof.
  apply (negative_grid_size (example_env server_up (fun _ => true))
           {| url_latlng := Ok (0%float, 0%float); out := "out.png";
              grid_size := -2; timeout := 10; delay := 1 # 2; retries := 2;
              background_hex := None; temp_dir := Some "tmp";
              keep_tiles := false; skip_existing := false |}
           empty_world 0%float 0%float 1024 1024).
  - reflexivity.
  - vm_compute. reflexivity.
  - reflexivity.
  - intros e H. discriminate H.
  - simpl. lia.
Defined.




(** ** Tile names *)

Lemma string_forallb_app P s1 s2 :
  string_forallb P (s1 +:+ s2) = string_forallb P s1 && string_forallb P s2.
Proof.
  induction s1 as [|c s1 IH]; [reflexivity|].
  simpl. rewrite IH, andb_assoc. reflexivity.
Qed.

Lemma numeral_char_pretty_N_char (x : N) : numeral_char (pretty_N_char x) = true.
Proof. unfold pretty_N_char. repeat case_match; reflexivity. Qed.

Lemma numeral_pretty_N_go (x : N) :
  forall s, string_forallb numeral_char s = true ->
            string_forallb numeral_char (pretty_N_go x s) = true.
Proof.
  induction (N.lt_wf_0 x) as [x _ IH]. intros s Hs.
  destruct (decide (x = 0%N)) as [->|Hx].
  - rewrite pretty_N_go_0. exact Hs.
  - rewrite pretty_N_go_step by lia. apply IH.
    + apply N.div_lt; lia.
    + cbn [string_forallb]. rewrite numeral_char_pretty_N_char. exact Hs.
Qed.

Lemma numeral_pretty_Z (x : Z) : string_forallb numeral_char (pretty x) = true.
Proof.
  assert (HN : forall p : positive,
             string_forallb numeral_char (pretty p) = true).
  { intros p. unfold pretty, pretty_positive, pretty, pretty_N.
    case_decide; [reflexivity|]. apply numeral_pretty_N_go. reflexivity. }
  unfold pretty, pretty_Z. destruct x as [|p|p]; [reflexivity|apply HN|].
  rewrite string_forallb_app. cbn. apply HN.
Qed.

(** Two strings free of a separator character, each followed by the
    separator, can only be joined in one way. *)
Lemma split_unique (sep : ascii) (s s' t t' : string) :
  string_forallb (fun c => negb (Ascii.eqb c sep)) s = true ->
  string_forallb (fun c => negb (Ascii.eqb c sep)) s' = true ->
  s +:+ String sep t = s' +:+ String sep t' ->
  s = s' /\ t = t'.
Proof.
  revert s'. induction s as [|c s IH]; intros [|c' s'] Hs Hs' Heq;
    simpl in *.
  - injection Heq as ->. split; reflexivity.
  - injection Heq as <- _. rewrite Ascii.eqb_refl in Hs'. discriminate.
  - injection Heq as -> _. rewrite Ascii.eqb_refl in Hs. discriminate.
  - apply andb_true_iff in Hs, Hs'. destruct Hs as [_ Hs], Hs' as [_ Hs'].
    injection Heq as -> Heq. destruct (IH s' Hs Hs' Heq) as [-> ->].
    split; reflexivity.
Qed.

Lemma numeral_free_of (sep : ascii) (s : string) :
  numeral_char sep = false ->
  string_forallb numeral_char s = true ->
  string_forallb (fun c => negb (Ascii.eqb c sep)) s = true.
Proof.
  intros Hsep. induction s as [|c s IH]; [reflexivity|].
  cbn [string_forallb]. intros H. apply andb_true_iff in H. destruct H as [Hc Hs].
  rewrite (IH Hs), andb_true_r. apply negb_true_iff.
  destruct (Ascii.eqb_spec c sep) as [->|]; [congruence | reflexivity].
Qed.

Lemma tile_name_inj (x y x' y' : Z) :
  pretty x +:+ "_" +:+ pretty y +:+ ".png"
  = pretty x' +:+ "_" +:+ pretty y' +:+ ".png" ->
  x = x' /\ y = y'.
Proof.
  intros H.
  apply (split_unique "_"%char) in H;
    try (apply numeral_free_of; [reflexivity | apply numeral_pretty_Z]).
  destruct H as [Hx Hy]. apply (inj pretty) in Hx.
  apply (split_unique "."%char) in Hy;
    try (apply numeral_free_of; [reflexivity | apply numeral_pretty_Z]).
  destruct Hy as [Hy _]. apply (inj pretty) in Hy. split; assumption.
Qed.

(** X18: within one tile directory, two tiles share a file name only if
    they are the same tile, and likewise for their addresses on the
    server. *)
Theorem tile_names_distinct (tiles_dir : string) (x y x' y' z z' : Z) :
  (tile_path tiles_dir x y = tile_path tiles_dir x' y' -> x = x' /\ y = y') /\
  (tile_url x y z = tile_url x' y' z' -> x = x' /\ y = y').
Proof.
  split.
  - unfold tile_path, path_join. intros H.
    apply (inj (String.app tiles_dir)) in H.
    apply (inj (String.app "/")) in H.
    apply (inj (String.app "tile_")) in H.
    apply tile_name_inj, H.
  - unfold tile_url. intros H.
    apply (inj (String.app DEFAULT_BACKEND_prefix)) in H.
    apply (split_unique "/"%char) in H;
      try (apply numeral_free_of; [reflexivity | apply numeral_pretty_Z]).
    destruct H as [Hx Hy]. apply (inj pretty) in Hx.
    apply (split_unique "."%char) in Hy;
      try (apply numeral_free_of; [reflexivity | apply numeral_pretty_Z]).
    destruct Hy as [Hy _]. apply (inj pretty) in Hy. split; assumption.
Qed.

Lemma tile_names_distinct_witness : 12 = 12 /\ 3 = 3.
Proof.
  apply (proj1 (tile_names_distinct "tmp" 12 3 12 3 11 11)). reflexivity.
Defined.

(** ** The colour parser *)

Lemma hex_digit_range c h : hex_digit c = Some h -> 0 <= h <= 15.
Proof.
  unfold hex_digit. set (n := Z.of_nat (nat_of_ascii c)). intros H.
  destruct ((48 <=? n) && (n <=? 57)) eqn:E1.
  { injection H as <-. lia. }
  destruct ((97 <=? n) && (n <=? 102)) eqn:E2.
  { injection H as <-. lia. }
  destruct ((65 <=? n) && (n <=? 70)) eqn:E3; [|discriminate].
  injection H as <-. lia.
Qed.

(** A hexadecimal digit is no blank and none of the characters that the
    parser treats specially, unless it is the digit 0. *)
Lemma hex_digit_plain c h :
  hex_digit c = Some h ->
  py_isspace c = false /\ Ascii.eqb c "#" = false
  /\ Ascii.eqb c "x" = false /\ Ascii.eqb c "X" = false.
Proof.
  destruct c as [[] [] [] [] [] [] [] []]; vm_compute; intros H;
    try discriminate H; repeat split.
Qed.

Lemma int_base16_digits c1 c2 h l :
  hex_digit c1 = Some h -> hex_digit c2 = Some l ->
  int_base16 c1 c2 = Ok (16 * h + l).
Proof. intros H1 H2. unfold int_base16. rewrite H1, H2. reflexivity. Qed.

Lemma int_base16_range c1 c2 v : int_base16 c1 c2 = Ok v -> -15 <= v <= 255.
Proof.
  unfold int_base16.
  destruct (hex_digit c1) as [h|] eqn:E1, (hex_digit c2) as [l|] eqn:E2;
    try apply hex_digit_range in E1; try apply hex_digit_range in E2; intros H.
  - injection H as <-. lia.
  - destruct (int_blank c2); [injection H as <-; lia | discriminate].
  - destruct (int_blank c1 || Ascii.eqb c1 "+"); [injection H as <-; lia|].
    destruct (Ascii.eqb c1 "-"); [injection H as <-; lia | discriminate].
  - discriminate.
Qed.

Lemma lstrip_plain c s : py_isspace c = false -> lstrip (String c s) = String c s.
Proof. intros H. cbn [lstrip]. rewrite H. reflexivity. Qed.

Section HexDigits.

Variables d1 d2 d3 d4 d5 d6 d7 d8 : ascii.
Variables h1 h2 h3 h4 h5 h6 h7 h8 : Z.
Hypothesis H1 : hex_digit d1 = Some h1.
Hypothesis H2 : hex_digit d2 = Some h2.
Hypothesis H3 : hex_digit d3 = Some h3.
Hypothesis H4 : hex_digit d4 = Some h4.
Hypothesis H5 : hex_digit d5 = Some h5.
Hypothesis H6 : hex_digit d6 = Some h6.
Hypothesis H7 : hex_digit d7 = Some h7.
Hypothesis H8 : hex_digit d8 = Some h8.

Local Abbreviation six :=
  (String d1 (String d2 (String d3 (String d4 (String d5 (String d6 EmptyString)))))).
Local Abbreviation eight :=
  (String d1 (String d2 (String d3 (String d4 (String d5 (String d6
     (String d7 (String d8 EmptyString)))))))).

Lemma strip_hash_six : strip (String "#" six) = String "#" six.
Proof.
  destruct (hex_digit_plain _ _ H6) as (Hs & _).
  unfold strip. rewrite (lstrip_plain "#" _ eq_refl).
  cbn [String.rev String.rev_app]. rewrite (lstrip_plain _ _ Hs). reflexivity.
Qed.

Lemma strip_six : strip six = six.
Proof.
  destruct (hex_digit_plain _ _ H1) as (Hs1 & _).
  destruct (hex_digit_plain _ _ H6) as (Hs6 & _).
  unfold strip. rewrite (lstrip_plain _ _ Hs1).
  cbn [String.rev String.rev_app]. rewrite (lstrip_plain _ _ Hs6). reflexivity.
Qed.

Lemma strip_hash_eight : strip (String "#" eight) = String "#" eight.
Proof.
  destruct (hex_digit_plain _ _ H8) as (Hs & _).
  unfold strip. rewrite (lstrip_plain "#" _ eq_refl).
  cbn [String.rev String.rev_app]. rewrite (lstrip_plain _ _ Hs). reflexivity.
Qed.

Lemma drop_0x_digits s : drop_0x (String d1 (String d2 s)) = String d1 (String d2 s).
Proof.
  destruct (hex_digit_plain _ _ H2) as (_ & _ & Hx & HX).
  unfold drop_0x. rewrite Hx, HX, andb_false_r. reflexivity.
Qed.

Lemma drop_hash_digit s : drop_hash (String d1 s) = String d1 s.
Proof.
  destruct (hex_digit_plain _ _ H1) as (_ & Hh & _).
  unfold drop_hash. rewrite Hh. reflexivity.
Qed.

(** X19: six hexadecimal digits, with or without the leading [#], parse to
    the three channels they spell, each between 0 and 255, with alpha 255;
    eight digits give the alpha channel as well. *)
Theorem parse_hex_color_digits :
  parse_hex_color (String "#" six)
  = Ok (16 * h1 + h2, 16 * h3 + h4, 16 * h5 + h6, 255)
  /\ parse_hex_color six = parse_hex_color (String "#" six)
  /\ parse_hex_color (String "#" eight)
     = Ok (16 * h1 + h2, 16 * h3 + h4, 16 * h5 + h6, 16 * h7 + h8)
  /\ (0 <= 16 * h1 + h2 <= 255 /\ 0 <= 16 * h3 + h4 <= 255
      /\ 0 <= 16 * h5 + h6 <= 255 /\ 0 <= 16 * h7 + h8 <= 255).
Proof.
  assert (Hsix : parse_hex_color (String "#" six)
                 = Ok (16 * h1 + h2, 16 * h3 + h4, 16 * h5 + h6, 255)).
  { unfold parse_hex_color. cbv zeta. rewrite strip_hash_six.
    change (drop_hash (String "#" six)) with six. rewrite drop_0x_digits.
    rewrite (int_base16_digits _ _ _ _ H1 H2), (int_base16_digits _ _ _ _ H3 H4),
      (int_base16_digits _ _ _ _ H5 H6). reflexivity. }
  split; [exact Hsix|]. split; [|split].
  - rewrite Hsix. unfold parse_hex_color. cbv zeta. rewrite strip_six.
    rewrite drop_hash_digit, drop_0x_digits.
    rewrite (int_base16_digits _ _ _ _ H1 H2), (int_base16_digits _ _ _ _ H3 H4),
      (int_base16_digits _ _ _ _ H5 H6). reflexivity.
  - unfold parse_hex_color. cbv zeta. rewrite strip_hash_eight.
    change (drop_hash (String "#" eight)) with eight. rewrite drop_0x_digits.
    rewrite (int_base16_digits _ _ _ _ H1 H2), (int_base16_digits _ _ _ _ H3 H4),
      (int_base16_digits _ _ _ _ H5 H6), (int_base16_digits _ _ _ _ H7 H8).
    reflexivity.
  - pose proof (hex_digit_range _ _ H1). pose proof (hex_digit_range _ _ H2).
    pose proof (hex_digit_range _ _ H3). pose proof (hex_digit_range _ _ H4).
    pose proof (hex_digit_range _ _ H5). pose proof (hex_digit_range _ _ H6).
    pose proof (hex_digit_range _ _ H7). pose proof (hex_digit_range _ _ H8).
    lia.
Qed.

(** X20: the three-digit shorthand parses like the six digits obtained by
    doubling each digit. *)
Theorem parse_hex_color_shorthand :
  parse_hex_color (String "#" (String d1 (String d2 (String d3 EmptyString))))
  = Ok (17 * h1, 17 * h2, 17 * h3, 255)
  /\ parse_hex_color (String "#" (String d1 (String d2 (String d3 EmptyString))))
     = parse_hex_color
         (String "#" (String d1 (String d1 (String d2 (String d2
            (String d3 (String d3 EmptyString))))))).
Proof.
  destruct (hex_digit_plain _ _ H1) as (_ & _ & Hx1 & HX1).
  destruct (hex_digit_plain _ _ H2) as (_ & _ & Hx2 & HX2).
  destruct (hex_digit_plain _ _ H3) as (Hs3 & _).
  assert (Hshort :
    parse_hex_color (String "#" (String d1 (String d2 (String d3 EmptyString))))
    = Ok (17 * h1, 17 * h2, 17 * h3, 255)).
  { unfold parse_hex_color, strip. cbv zeta.
    rewrite (lstrip_plain "#" _ eq_refl).
    cbn [String.rev String.rev_app]. rewrite (lstrip_plain _ _ Hs3).
    cbn [String.rev String.rev_app drop_hash Ascii.eqb Bool.eqb].
    unfold drop_0x. rewrite Hx2, HX2, andb_false_r.
    rewrite (int_base16_digits _ _ _ _ H1 H1), (int_base16_digits _ _ _ _ H2 H2),
      (int_base16_digits _ _ _ _ H3 H3). cbn [rbind].
    do 3 f_equal; [f_equal|]; lia. }
  split; [exact Hshort|]. rewrite Hshort.
  unfold parse_hex_color, strip. cbv zeta.
  rewrite (lstrip_plain "#" _ eq_refl).
  cbn [String.rev String.rev_app]. rewrite (lstrip_plain _ _ Hs3).
  cbn [String.rev String.rev_app drop_hash Ascii.eqb Bool.eqb].
  unfold drop_0x. rewrite Hx1, HX1, andb_false_r.
  rewrite (int_base16_digits _ _ _ _ H1 H1), (int_base16_digits _ _ _ _ H2 H2),
    (int_base16_digits _ _ _ _ H3 H3). cbn [rbind].
  do 3 f_equal; [f_equal|]; lia.
Qed.

End HexDigits.

Lemma parse_hex_color_digits_witness :
  parse_hex_color "#f5F5f580" = Ok (245, 245, 245, 128).
Proof.
  exact (proj1 (proj2 (proj2
    (parse_hex_color_digits "f" "5" "F" "5" "f" "5" "8" "0" 15 5 15 5 15 5 8 0
       eq_refl eq_refl eq_refl eq_refl eq_refl eq_refl eq_refl eq_refl)))).
Defined.

Lemma parse_hex_color_shorthand_witness :
  parse_hex_color "#abc" = parse_hex_color "#aabbcc".
Proof.
  exact (proj2 (parse_hex_color_shorthand "a" "b" "c" 10 11 12
                  eq_refl eq_refl eq_refl)).
Defined.

(** X21: whatever [parse_hex_color] returns, each channel lies between
    -15 and 255; the lower bound is reached because a pair may be a sign
    and a digit. Every input whose digits, once blanks and prefixes are
    removed, do not number three, six or eight is rejected. *)
Theorem parse_hex_color_range (s : string) (r g b a : Z) :
  parse_hex_color s = Ok (r, g, b, a) ->
  (-15 <= r <= 255 /\ -15 <= g <= 255 /\ -15 <= b <= 255 /\ -15 <= a <= 255)
  /\ (String.length (drop_0x (drop_hash (strip s))) = 3%nat
      \/ String.length (drop_0x (drop_hash (strip s))) = 6%nat
      \/ String.length (drop_0x (drop_hash (strip s))) = 8%nat).
Proof.
  unfold parse_hex_color. cbv zeta.
  destruct (drop_0x (drop_hash (strip s)))
    as [|c0 [|c1 [|c2 [|c3 [|c4 [|c5 [|c6 [|c7 [|c8 t]]]]]]]]];
    intros H; try discriminate H; invert_rbind; injection H as <- <- <- <-;
    repeat match goal with
           | E : int_base16 _ _ = Ok _ |- _ => apply int_base16_range in E
           end;
    (split; [lia | simpl; auto]).
Qed.

Lemma parse_hex_color_range_witness :
  parse_hex_color "#-f-f-f" = Ok (-15, -15, -15, 255) /\
  (-15 <= -15 <= 255 /\ -15 <= -15 <= 255 /\ -15 <= -15 <= 255 /\ -15 <= 255 <= 255).
Proof.
  split; [vm_compute; reflexivity|].
  apply (parse_hex_color_range "#-f-f-f" (-15) (-15) (-15) 255).
  vm_compute. reflexivity.
Defined.

(** ** Exhausted retries, from the fetcher to the canvas *)









